(** * NGSI-LD client: entity model, attribute builders and the
      synchronisation protocol of the entities endpoint.

    Sources embedded here:
    - [orionldclient/model/_attribute.py]  (attribute builders),
    - [orionldclient/model/entity.py]      (ContextBuilder, Entity),
    - [ngsildclient/api/entities.py]       (Entities endpoint).

    Python objects are modelled as follows.  JSON-like data is a tree
    ([pyval]); a Python [dict] is an association list in insertion order
    with the update-in-place behaviour of [d[k] = v]; the two kinds of
    objects whose identity is observable in the code (the payload
    dictionary of an entity and the context lists handed around by
    reference) live in a store and are named by locations. *)

From Stdlib Require Import ZArith Ascii String List Bool Lia DecimalString.
From stdpp Require Import base list strings pretty.

Set Warnings "-register-all".
Open Scope string_scope.
Open Scope Z_scope.

(** ** Python values *)

Module Py.

(** [datetime.datetime], field by field. *)
Record datetime : Type := mkDatetime {
  year : Z; month : Z; day : Z;
  hour : Z; minute : Z; second : Z; microsecond : Z
}.

(** The values the builders can be handed.  [VFloat] carries the
    binary64 bit pattern; [VTuple], [VDatetime] and [VObject] stand for
    values that are none of int, float, bool, str, list or dict. *)
Inductive pyval : Type :=
| VNone
| VBool (b : bool)
| VInt (n : Z)
| VFloat (bits : Z)
| VStr (s : string)
| VList (xs : list pyval)
| VDict (kvs : list (string * pyval))
| VTuple (xs : list pyval)
| VDatetime (d : datetime)
| VObject (cls : string).

(** Exceptions raised by the modelled code. *)
Inductive exn : Type :=
| NgsiUnmatchedAttributeTypeError
| NgsiMissingIdError
| NgsiMissingTypeError
| NgsiMissingContextError
| NgsiAlreadyExistsError
| NgsiApiError (msg : string)
| HTTPError (status : Z)
| KeyError (key : string)
| ValueError (msg : string)
| TypeError
| JSONDecodeError
| RecursionError
| SystemError.

Inductive result (A : Type) : Type :=
| Ok (a : A)
| Raise (e : exn).
Arguments Ok {A} a.
Arguments Raise {A} e.

(** A small state-and-exception monad: a computation runs on a state,
    may change it, and either returns a value or raises. *)
Section Monad.
Context {S : Type}.

Definition M (A : Type) : Type := S -> result A * S.

Definition ret {A} (a : A) : M A := fun s => (Ok a, s).
Definition raise {A} (e : exn) : M A := fun s => (Raise e, s).
Definition bind {A B} (m : M A) (k : A -> M B) : M B :=
  fun s => match m s with
           | (Ok a, s') => k a s'
           | (Raise e, s') => (Raise e, s')
           end.
(** [try: m except <handled>: h] *)
Definition try_except {A} (m : M A) (handled : exn -> bool) (h : M A) : M A :=
  fun s => match m s with
           | (Raise e, s') => if handled e then h s' else (Raise e, s')
           | r => r
           end.
Definition lift {A} (r : result A) : M A := fun s => (r, s).
End Monad.
Arguments M S A : clear implicits.

Notation "'let*' x ':=' m 'in' k" := (bind m (fun x => k))
  (at level 10, x name, m at level 100, k at level 200).

(** Truth value of an object ([bool(x)], [if x:], [not x]). *)
Definition truthy (v : pyval) : bool :=
  match v with
  | VNone => false
  | VBool b => b
  | VInt n => negb (n =? 0)
  | VFloat bits => negb (bits mod 2 ^ 63 =? 0)
  | VStr s => negb (String.eqb s EmptyString)
  | VList xs => match xs with [] => false | _ => true end
  | VDict kvs => match kvs with [] => false | _ => true end
  | VTuple xs => match xs with [] => false | _ => true end
  | VDatetime _ => true
  | VObject _ => true
  end.

(** ** Dictionaries: insertion-ordered, keys unique *)

Section Dict.
Context {V : Type}.

Definition dict : Type := list (string * V).

(** [d.get(k)] *)
Fixpoint dict_get (k : string) (d : dict) : option V :=
  match d with
  | [] => None
  | (k', v) :: d' => if String.eqb k k' then Some v else dict_get k d'
  end.

(** [k in d] *)
Definition dict_mem (k : string) (d : dict) : bool :=
  match dict_get k d with Some _ => true | None => false end.

(** [d[k] = v]: an existing key keeps its position, a new key goes last. *)
Fixpoint dict_set (k : string) (v : V) (d : dict) : dict :=
  match d with
  | [] => [(k, v)]
  | (k', v') :: d' =>
      if String.eqb k k' then (k', v) :: d' else (k', v') :: dict_set k v d'
  end.

(** [del d[k]] on a key that is present. *)
Fixpoint dict_del (k : string) (d : dict) : dict :=
  match d with
  | [] => []
  | (k', v') :: d' =>
      if String.eqb k k' then d' else (k', v') :: dict_del k d'
  end.

(** [d |= other]: every item of [other] is stored into [d], in order. *)
Definition dict_update (d other : dict) : dict :=
  fold_left (fun acc kv => dict_set (fst kv) (snd kv) acc) other d.

Definition dict_keys (d : dict) : list string := map fst d.

(** Keys are unique, as in every Python dict. *)
Definition dict_wf (d : dict) : Prop := NoDup (dict_keys d).
End Dict.
Arguments dict V : clear implicits.

End Py.
Import Py.

(** ** Attribute builders ([orionldclient/model/_attribute.py]) *)

Module Attribute.

(** Modelled from the spec: [NgsiDict] of [model/ngsidict.py], which is not
    among the sources: the "attribute document (mapping)", a dictionary. *)
Definition NgsiDict : Type := dict pyval.

(** Modelled from the spec: [AttrType] and the [META_ATTR_*] constants of
    [model/constants.py], which is not among the sources; the spec gives
    the attribute shapes [{type: "Property", value, unitCode?, observedAt?,
    datasetId?}] and [{type: "Relationship", object, observedAt?}]. *)
Definition AttrType_PROP : string := "Property".
Definition AttrType_REL : string := "Relationship".
Definition META_ATTR_UNITCODE : string := "unitCode".
Definition META_ATTR_OBSERVED_AT : string := "observedAt".
Definition META_ATTR_DATASET_ID : string := "datasetId".
Definition META_ATTR_CONTEXT : string := "@context".

(** Modelled from the spec: [urnprefix] of [orionldclient/utils], which is
    not among the sources: "normalizes bare identifiers into the
    [urn:ngsi-ld:...] form; idempotent on already-prefixed ids". *)
Definition URN_PREFIX : string := "urn:ngsi-ld:".
Definition urnprefix (s : string) : string :=
  if String.prefix URN_PREFIX s then s else URN_PREFIX ++ s.

(** [isinstance(value, (int, float, bool, str, list, dict))] *)
Definition is_property_value (v : pyval) : bool :=
  match v with
  | VInt _ | VFloat _ | VBool _ | VStr _ | VList _ | VDict _ => true
  | _ => false
  end.

Section Builders.
(** [iso8601.from_datetime], whose module is not among the sources. *)
Variable from_datetime : datetime -> string.

(** The [observedat] normalisation shared by both builders:
    a [datetime] becomes its ISO-8601 string, anything else is kept. *)
Definition normalize_observedat (observedat : pyval) : pyval :=
  match observedat with
  | VDatetime d => VStr (from_datetime d)
  | _ => observedat
  end.

Definition build_property (value unitcode observedat : pyval)
    (datasetid : option string) (userdata : NgsiDict) : result NgsiDict :=
  let property : NgsiDict := [] in
  let property := dict_set "type" (VStr AttrType_PROP) property in
  if is_property_value value then
    let property := dict_set "value" value property in
    let property :=
      match unitcode with
      | VNone => property
      | _ => dict_set META_ATTR_UNITCODE unitcode property
      end in
    let property :=
      match observedat with
      | VNone => property
      | _ => dict_set META_ATTR_OBSERVED_AT
               (normalize_observedat observedat) property
      end in
    let property :=
      match datasetid with
      | None => property
      | Some d => dict_set META_ATTR_DATASET_ID (VStr (urnprefix d)) property
      end in
    let property :=
      if truthy (VDict userdata) then dict_update property userdata
      else property in
    Ok property
  else Raise NgsiUnmatchedAttributeTypeError.

Definition build_relationship (value : string) (observedat : pyval)
    (userdata : NgsiDict) : result NgsiDict :=
  let property : NgsiDict := [] in
  let property := dict_set "type" (VStr AttrType_REL) property in
  let property := dict_set "object" (VStr (urnprefix value)) property in
  let property :=
    match observedat with
    | VNone => property
    | _ => dict_set META_ATTR_OBSERVED_AT
             (normalize_observedat observedat) property
    end in
  let property :=
    if truthy (VDict userdata) then dict_update property userdata
    else property in
  Ok property.
End Builders.

End Attribute.

(** ** ContextBuilder and Entity ([orionldclient/model/entity.py]) *)

Module Model.
Import Attribute.

Definition loc : Type := nat.

(** A payload entry is plain data or a reference to a list object. *)
Inductive slot : Type :=
| SVal (v : pyval)
| SRef (l : loc).

(** The store: list objects and payload dictionaries, by location.
    Reading a location that was never allocated raises [SystemError];
    Python code cannot hold such a reference, so this marks a store that
    is not well formed. *)
Record store : Type := mkStore {
  lists : list (list pyval);
  dicts : list (dict slot)
}.

Definition read_list (l : loc) : M store (list pyval) :=
  fun s => match lists s !! l with
           | Some xs => (Ok xs, s)
           | None => (Raise SystemError, s)
           end.

Definition write_list (l : loc) (xs : list pyval) : M store unit :=
  fun s => (Ok tt, {| lists := <[l := xs]> (lists s); dicts := dicts s |}).

Definition alloc_list (xs : list pyval) : M store loc :=
  fun s => (Ok (length (lists s)),
            {| lists := lists s ++ [xs]; dicts := dicts s |}).

Definition read_dict (p : loc) : M store (dict slot) :=
  fun s => match dicts s !! p with
           | Some d => (Ok d, s)
           | None => (Raise SystemError, s)
           end.

Definition write_dict (p : loc) (d : dict slot) : M store unit :=
  fun s => (Ok tt, {| lists := lists s; dicts := <[p := d]> (dicts s) |}).

Definition alloc_dict (d : dict slot) : M store loc :=
  fun s => (Ok (length (dicts s)),
            {| lists := lists s; dicts := dicts s ++ [d] |}).

(** [d[k]] *)
Definition dict_getitem (p : loc) (k : string) : M store slot :=
  let* d := read_dict p in
  match dict_get k d with
  | Some v => ret v
  | None => raise (KeyError k)
  end.

(** [d[k] = v] *)
Definition dict_setitem (p : loc) (k : string) (v : slot) : M store unit :=
  let* d := read_dict p in write_dict p (dict_set k v d).

(** [del d[k]] *)
Definition dict_delitem (p : loc) (k : string) : M store unit :=
  let* d := read_dict p in
  if dict_mem k d then write_dict p (dict_del k d) else raise (KeyError k).

(** *** ContextBuilder *)

(** The class attributes [DEFAULT] and [EMPTY] are two list objects
    created once, when the class body is executed. *)
Definition DEFAULT : loc := 0%nat.
Definition EMPTY : loc := 1%nat.

Definition DEFAULT_uris : list pyval :=
  [ VStr "https://schema.lab.fiware.org/ld/context";
    VStr "https://uri.etsi.org/ngsi-ld/v1/ngsi-ld-core-context.jsonld" ].

(** The store right after the module has been imported. *)
Definition module_store : store :=
  {| lists := [DEFAULT_uris; []]; dicts := [] |}.

Record ContextBuilder : Type := mkContextBuilder { _ctx : loc }.

(** [__init__]: [self._ctx = ContextBuilder.DEFAULT if ctx is None else ctx] *)
Definition ContextBuilder_init (ctx : option loc) : ContextBuilder :=
  {| _ctx := match ctx with None => DEFAULT | Some c => c end |}.

Definition add (self : ContextBuilder) (uri : string) : M store ContextBuilder :=
  let* xs := read_list (_ctx self) in
  let* _ := write_list (_ctx self) (xs ++ [VStr uri]) in
  ret self.

Definition is_str (uri : string) (v : pyval) : bool :=
  match v with VStr s => String.eqb s uri | _ => false end.

(** [list.remove]: drops the first equal element. *)
Fixpoint list_remove (uri : string) (xs : list pyval) : option (list pyval) :=
  match xs with
  | [] => None
  | x :: xs' =>
      if is_str uri x then Some xs'
      else match list_remove uri xs' with
           | Some ys => Some (x :: ys)
           | None => None
           end
  end.

Definition remove (self : ContextBuilder) (uri : string) : M store ContextBuilder :=
  let* xs := read_list (_ctx self) in
  match list_remove uri xs with
  | Some ys => let* _ := write_list (_ctx self) ys in ret self
  | None => raise (ValueError "list.remove(x): x not in list")
  end.

Definition build (self : ContextBuilder) : loc := _ctx self.

(** *** Entity *)

Record Entity : Type := mkEntity { _payload : loc; contextfirst : bool }.

(** Modelled from the spec: [Urn.prefix], whose module is not among the
    sources; the same normaliser as [urnprefix] on identifiers.  On the
    [None] that [from_dict] passes the argument is kept; [from_dict]
    overwrites that entry. *)
Definition Urn_prefix (v : pyval) : pyval :=
  match v with
  | VStr s => VStr (urnprefix s)
  | _ => v
  end.

(** The default of [context] is [ContextBuilder().build()], evaluated once
    when [__init__] is defined. *)
Definition Entity_default_context : loc := build (ContextBuilder_init None).

Definition Entity_init (id type : pyval) (context : option loc)
    (contextfirst : bool) : M store Entity :=
  let context := match context with
                 | Some c => c
                 | None => Entity_default_context
                 end in
  let* p := alloc_dict [ (META_ATTR_CONTEXT, SRef context);
                         ("id", SVal (Urn_prefix id));
                         ("type", SVal type) ] in
  ret {| _payload := p; contextfirst := contextfirst |}.

(** [entity.get(k, None)] *)
Definition get_or_None (k : string) (entity : dict pyval) : pyval :=
  match dict_get k entity with Some v => v | None => VNone end.

Definition as_slots (entity : dict pyval) : dict slot :=
  map (fun kv => (fst kv, SVal (snd kv))) entity.

Definition from_dict (entity : dict pyval) : M store Entity :=
  if negb (truthy (get_or_None "id" entity)) then raise NgsiMissingIdError
  else if negb (truthy (get_or_None "type" entity)) then raise NgsiMissingTypeError
  else if negb (truthy (get_or_None "@context" entity)) then
    raise NgsiMissingContextError
  else
    let* instance := Entity_init VNone VNone None false in
    let* d := read_dict (_payload instance) in
    let* _ := write_dict (_payload instance) (dict_update d (as_slots entity)) in
    ret instance.

Definition Entity_id (self : Entity) : M store slot :=
  dict_getitem (_payload self) "id".
Definition Entity_type (self : Entity) : M store slot :=
  dict_getitem (_payload self) "type".
Definition Entity_context (self : Entity) : M store slot :=
  dict_getitem (_payload self) "@context".

Definition setattr (self : Entity) (attr : string) (value : slot) : M store unit :=
  dict_setitem (_payload self) attr value.

(** *** [copy.deepcopy] of a payload dictionary

    Items are copied in order.  Plain data is copied to an equal tree; a
    referenced list is copied to a new list object, once: the memo sends
    the list already copied to its copy. *)
Fixpoint memo_get (l : loc) (memo : list (loc * loc)) : option loc :=
  match memo with
  | [] => None
  | (a, b) :: memo' => if Nat.eqb l a then Some b else memo_get l memo'
  end.

Definition deepcopy_slot (v : slot) (memo : list (loc * loc))
    : M store (slot * list (loc * loc)) :=
  match v with
  | SVal x => ret (SVal x, memo)
  | SRef l =>
      match memo_get l memo with
      | Some l' => ret (SRef l', memo)
      | None =>
          let* xs := read_list l in
          let* l' := alloc_list xs in
          ret (SRef l', (l, l') :: memo)
      end
  end.

Fixpoint deepcopy_items (items : dict slot) (memo : list (loc * loc))
    : M store (dict slot) :=
  match items with
  | [] => ret []
  | (k, v) :: rest =>
      let* c := deepcopy_slot v memo in
      let* rest' := deepcopy_items rest (snd c) in
      ret ((k, fst c) :: rest')
  end.

Definition deepcopy (p : loc) : M store loc :=
  let* d := read_dict p in
  let* d' := deepcopy_items d [] in
  alloc_dict d'.

Definition to_dict (self : Entity) (contextfirst : bool) : M store loc :=
  if contextfirst then ret (_payload self)
  else
    let* ctx := dict_getitem (_payload self) META_ATTR_CONTEXT in
    let* payload := deepcopy (_payload self) in
    let* _ := dict_delitem payload META_ATTR_CONTEXT in
    let* _ := dict_setitem payload META_ATTR_CONTEXT ctx in
    ret payload.

End Model.

(** ** The entities endpoint ([ngsildclient/api/entities.py]) *)

Module Api.
Import Attribute.

(** *** The transport

    A request as handed to the session, and the response read back. *)
Inductive Method : Type := GET | POST | DELETE.

Record Request : Type := mkRequest {
  method : Method;
  req_url : string;
  req_headers : dict (option string);
  req_params : dict pyval;
  req_json : option pyval
}.

Record Response : Type := mkResponse {
  status_code : Z;
  headers : dict string;
  body : option pyval
}.

(** [bool(r)] is [r.ok]: no 4xx or 5xx status. *)
Definition ok (r : Response) : bool :=
  negb ((400 <=? status_code r) && (status_code r <? 600)).

(** Modelled from the spec: the [Client] of [api/client.py], which is not
    among the sources: "shared configuration (overwrite policy,
    error-ignoring policy)" next to the session and the broker address. *)
Module Client.
Record t : Type := mk {
  hostname : string;
  port : Z;
  overwrite : bool;
  ignore_errors : bool
}.
End Client.

(** Modelled from the spec: the [Entity] of [ngsildclient/model/entity.py],
    which is not among the sources; the endpoint reads its [id] and its
    [_payload] only. *)
Record Entity : Type := mkEntity { id : string; _payload : pyval }.

(** [EntityOrId] *)
Inductive EntityOrId : Type :=
| IsEntity (e : Entity)
| IsId (s : string).

Record Entities : Type := mkEntities { _client : Client.t; url : string }.

(** Modelled from the spec: [JSONLD_CONTEXT] of [api/constants.py], which
    is not among the sources; the spec gives the [Link] header in full. *)
Definition JSONLD_CONTEXT : string := "http://www.w3.org/ns/json-ld#context".

Definition dquote : string := String (Ascii.ascii_of_nat 34) EmptyString.

Definition link_header (ctx : string) : string :=
  "<" ++ ctx ++ ">; rel=" ++ dquote ++ JSONLD_CONTEXT ++ dquote
      ++ "; type=" ++ dquote ++ "application/ld+json" ++ dquote.

(** [s.rsplit("/", 1)[-1]]: what follows the last slash. *)
Fixpoint last_segment (s acc : string) : string :=
  match s with
  | EmptyString => acc
  | String c s' =>
      if Ascii.eqb c "/"%char then last_segment s' EmptyString
      else last_segment s' (acc ++ String c EmptyString)
  end.
Definition rsplit_last (s : string) : string := last_segment s EmptyString.

(** [k in payload] *)
Definition py_in (k : string) (payload : pyval) : result bool :=
  match payload with
  | VDict kvs => Ok (dict_mem k kvs)
  | VList xs | VTuple xs => Ok (existsb (Model.is_str k) xs)
  | VStr s => Ok (match String.index 0 k s with Some _ => true | None => false end)
  | _ => Raise TypeError
  end.

(** Iterating over a decoded body: the elements of a list, the keys of a
    dictionary, the characters of a string. *)
Definition py_iter (v : pyval) : result (list pyval) :=
  match v with
  | VList xs | VTuple xs => Ok xs
  | VDict kvs => Ok (map (fun kv => VStr (fst kv)) kvs)
  | VStr s => Ok (map (fun c => VStr (String c EmptyString))
                      (list_ascii_of_string s))
  | _ => Raise TypeError
  end.

(** [if s:] on an optional string argument. *)
Definition str_truthy (s : option string) : bool :=
  match s with
  | Some x => truthy (VStr x)
  | None => false
  end.

Definition is_None {A} (o : option A) : bool :=
  match o with None => true | Some _ => false end.

(** The state the endpoint runs on: the broker behind the session, and the
    requests sent so far, oldest first. *)
Record World (W : Type) : Type := mkWorld { broker : W; log : list Request }.
Arguments mkWorld {W} broker log.
Arguments broker {W} w.
Arguments log {W} w.

Section Endpoint.
Variable W : Type.
(** The session: answers a request and moves the broker on. *)
Variable send : Request -> W -> Response * W.
(** [Entity.from_dict] of the missing model, and the builtin [int]. *)
Variable Entity_from_dict : pyval -> result Entity.
Variable py_int : string -> option Z.

Definition session_request (req : Request) : M (World W) Response :=
  fun w => let (r, b) := send req (broker w) in
           (Ok r, {| broker := b; log := log w ++ [req] |}).

Definition session_post (u : string) (json : pyval) : M (World W) Response :=
  session_request {| method := POST; req_url := u; req_headers := [];
                     req_params := []; req_json := Some json |}.

Definition session_get (u : string) (hs : dict (option string))
    (params : dict pyval) : M (World W) Response :=
  session_request {| method := GET; req_url := u; req_headers := hs;
                     req_params := params; req_json := None |}.

Definition session_delete (u : string) : M (World W) Response :=
  session_request {| method := DELETE; req_url := u; req_headers := [];
                     req_params := []; req_json := None |}.

(** [r.json()] *)
Definition response_json (r : Response) : M (World W) pyval :=
  match body r with
  | Some v => ret v
  | None => raise JSONDecodeError
  end.

(** Modelled from the spec: [Client.raise_for_status], which is not among
    the sources: the "classification hook the core calls to convert
    non-2xx responses into the taxonomy". *)
Definition raise_for_status (client : Client.t) (r : Response)
    : M (World W) unit :=
  if (200 <=? status_code r) && (status_code r <? 300) then ret tt
  else raise (HTTPError (status_code r)).

(** Modelled from the spec: the error classes of [api/exceptions.py], which
    is not among the sources: a conflict (409) is [NgsiAlreadyExistsError],
    "any other non-success status is translated into a structured error". *)
Definition classify (status : Z) : exn :=
  if status =? 409 then NgsiAlreadyExistsError
  else NgsiApiError "Broker-classified HTTP error".

(** Modelled from the spec: the decorator [rfc7807_error_handle] of
    [api/exceptions.py], which is not among the sources: it turns the HTTP
    error of the wrapped call into its class; other exceptions pass. *)
Definition rfc7807_error_handle {A} (m : M (World W) A) : M (World W) A :=
  fun w => match m w with
           | (Raise (HTTPError status), w') => (Raise (classify status), w')
           | r => r
           end.

Definition eid_of (entity : EntityOrId) : string :=
  match entity with
  | IsEntity e => id e
  | IsId s => urnprefix s
  end.

(** The part of [create] after the conflict test. *)
Definition create_accept (self : Entities) (entity : Entity) (r : Response)
    : M (World W) (option Entity) :=
  let* _ := raise_for_status (_client self) r in
  match dict_get "Location" (headers r) with
  | None =>
      if Client.ignore_errors (_client self) then ret None
      else raise (NgsiApiError "Missing Location header")
  | Some location =>
      let id_returned_from_broker := rsplit_last location in
      if negb (String.eqb (id entity) id_returned_from_broker)
      then raise (NgsiApiError ("Broker returned wrong id. Expected=" ++ id entity
                                ++ " Returned=" ++ id_returned_from_broker))
      else ret (Some entity)
  end.

(** [create] and [update] call each other; each body takes the other
    function as an argument and the knot is tied below. *)
Definition create_body
    (update : Entities -> Entity -> bool -> M (World W) (option Entity))
    (self : Entities) (entity : Entity) (skip overwrite : bool)
    : M (World W) (option Entity) :=
  rfc7807_error_handle (
    let* r := session_post (url self ++ "/") (_payload entity) in
    if status_code r =? 409 then
      if skip then ret None
      else if overwrite || Client.overwrite (_client self)
      then update self entity false
      else create_accept self entity r
    else create_accept self entity r).

Definition delete (self : Entities) (entity : EntityOrId) : M (World W) bool :=
  rfc7807_error_handle (
    let eid := eid_of entity in
    let* r := session_delete (url self ++ "/" ++ eid) in
    let* _ := raise_for_status (_client self) r in
    ret (ok r)).

Definition exists_ (self : Entities) (entity : EntityOrId) : M (World W) bool :=
  rfc7807_error_handle (
    let eid := eid_of entity in
    let* r := session_get (url self ++ "/" ++ eid) [] [] in
    if ok r then
      let* payload := response_json r in
      lift (py_in "@context" payload)
    else ret false).

Definition update_body
    (create : Entities -> Entity -> bool -> bool -> M (World W) (option Entity))
    (self : Entities) (entity : Entity) (check_exists : bool)
    : M (World W) (option Entity) :=
  rfc7807_error_handle (
    let* found := (if check_exists then exists_ self (IsEntity entity)
                   else ret false) in
    if found then
      let* _ := delete self (IsEntity entity) in
      create self entity false false
    else ret None).

(** The recursion depth is the fuel; running out of it is Python's
    [RecursionError]. *)
Fixpoint create (fuel : nat) (self : Entities) (entity : Entity)
    (skip overwrite : bool) : M (World W) (option Entity) :=
  match fuel with
  | O => raise RecursionError
  | S fuel' => create_body (update_body (create fuel')) self entity skip overwrite
  end.

Definition update (fuel : nat) (self : Entities) (entity : Entity)
    (check_exists : bool) : M (World W) (option Entity) :=
  update_body (create fuel) self entity check_exists.

Definition is_already_exists (e : exn) : bool :=
  match e with NgsiAlreadyExistsError => true | _ => false end.

Definition upsert (fuel : nat) (self : Entities) (entity : Entity)
    : M (World W) (option Entity) :=
  rfc7807_error_handle (
    try_except (create fuel self entity false false) is_already_exists
      (let* _ := delete self (IsEntity entity) in
       create fuel self entity false false)).

Fixpoint mapM {A B} (f : A -> M (World W) B) (xs : list A) : M (World W) (list B) :=
  match xs with
  | [] => ret []
  | x :: xs' =>
      let* y := f x in
      let* ys := mapM f xs' in
      ret (y :: ys)
  end.

Definition filter_params (type q gq : option string) (params : dict pyval)
    : dict pyval :=
  let params := match type with
                | Some t => if str_truthy type then dict_set "type" (VStr t) params
                            else params
                | None => params
                end in
  let params := match q with
                | Some x => if str_truthy q then dict_set "q" (VStr x) params
                            else params
                | None => params
                end in
  match gq with
  | Some g => if str_truthy gq then dict_set "geoQ" (VStr g) params else params
  | None => params
  end.

Definition accept_headers (accept : string) (ctx : option string)
    : dict (option string) :=
  let hs := [("Accept", Some accept); ("Content-Type", None)] in
  match ctx with
  | Some c => dict_set "Link" (Some (link_header c)) hs
  | None => hs
  end.

Definition _query (self : Entities) (type q gq ctx : option string)
    (limit offset : Z) : M (World W) (list Entity) :=
  rfc7807_error_handle (
    let params : dict pyval := [] in
    let params := if negb (limit =? 0)
                  then dict_update params [("limit", VInt limit)] else params in
    let params := if negb (offset =? 0)
                  then dict_update params [("offset", VInt offset)] else params in
    if is_None type && is_None q then
      raise (ValueError "Must indicate at least a type or a query string")
    else
      let params := filter_params type q gq params in
      let hs := accept_headers "application/ld+json" ctx in
      let* r := session_get (url self) hs params in
      let* _ := raise_for_status (_client self) r in
      let* entities := response_json r in
      let* items := lift (py_iter entities) in
      mapM (fun entity => lift (Entity_from_dict entity)) items).

Definition count (self : Entities) (type q gq ctx : option string)
    : M (World W) Z :=
  rfc7807_error_handle (
    let params : dict pyval := [("limit", VInt 0); ("count", VStr "true")] in
    if is_None type && is_None q then
      raise (ValueError "Must indicate at least a type or a query string")
    else
      let params := filter_params type q gq params in
      let hs := accept_headers "application/json" ctx in
      let* r := session_get (url self) hs params in
      let* _ := raise_for_status (_client self) r in
      match dict_get "NGSILD-Results-Count" (headers r) with
      | None => raise (KeyError "NGSILD-Results-Count")
      | Some n =>
          match py_int n with
          | Some c => ret c
          | None => raise (ValueError "invalid literal for int()")
          end
      end).
End Endpoint.

End Api.

(** ** Collaborators used to run the code on concrete inputs *)

Module Iso8601.
Definition pad2 (n : Z) : string :=
  if n <? 10 then "0" ++ pretty n else pretty n.
Definition pad4 (n : Z) : string :=
  if n <? 10 then "000" ++ pretty n
  else if n <? 100 then "00" ++ pretty n
  else if n <? 1000 then "0" ++ pretty n
  else pretty n.
(** Modelled from the spec: [iso8601.from_datetime], which is not among
    the sources: "datetime values normalized to ISO-8601 strings". *)
Definition from_datetime (d : datetime) : string :=
  pad4 (year d) ++ "-" ++ pad2 (month d) ++ "-" ++ pad2 (day d) ++ "T"
    ++ pad2 (hour d) ++ ":" ++ pad2 (minute d) ++ ":" ++ pad2 (second d) ++ "Z".
End Iso8601.

(** A broker that enforces "entity already exists": it keeps the posted
    documents by id, answers 409 to a POST of a stored id, 201 with the
    [Location] of the new resource otherwise, and serves GET and DELETE
    on [.../<id>]. *)
Module RefBroker.
Import Api.

Definition state : Type := dict pyval.

Definition doc_id (doc : pyval) : option string :=
  match doc with
  | VDict kvs => match dict_get "id" kvs with
                 | Some (VStr i) => Some i
                 | _ => None
                 end
  | _ => None
  end.

Definition answer (status : Z) (hs : dict string) (b : option pyval) : Response :=
  {| status_code := status; headers := hs; body := b |}.

Definition send (req : Request) (st : state) : Response * state :=
  match method req with
  | POST =>
      match req_json req with
      | Some doc =>
          match doc_id doc with
          | Some i =>
              if dict_mem i st then (answer 409 [] None, st)
              else (answer 201 [("Location", req_url req ++ i)] None,
                    dict_set i doc st)
          | None => (answer 400 [] None, st)
          end
      | None => (answer 400 [] None, st)
      end
  | DELETE =>
      let i := rsplit_last (req_url req) in
      if dict_mem i st then (answer 204 [] None, dict_del i st)
      else (answer 404 [] None, st)
  | GET =>
      match dict_get (rsplit_last (req_url req)) st with
      | Some doc => (answer 200 [] (Some doc), st)
      | None => (answer 404 [] None, st)
      end
  end.

(** The room of the spec's scenarios, and an older version of it. *)
Definition room1_id : string := "urn:ngsi-ld:RoomObserved:Room1".

Definition room1_doc (temperature : Z) : pyval :=
  VDict [ ("@context", VList Model.DEFAULT_uris);
          ("id", VStr room1_id);
          ("type", VStr "RoomObserved");
          ("temperature", VDict [("type", VStr "Property");
                                 ("value", VInt temperature)]) ].

Definition room1 : Entity := {| id := room1_id; _payload := room1_doc 23 |}.

Definition client (overwrite : bool) : Client.t :=
  {| Client.hostname := "localhost"; Client.port := 1026;
     Client.overwrite := overwrite; Client.ignore_errors := false |}.

Definition endpoint (overwrite : bool) : Entities :=
  {| _client := client overwrite;
     url := "http://localhost:1026/ngsi-ld/v1/entities" |}.

Definition empty_world : World state := mkWorld [] [].
(** The broker already holds an older [Room1]. *)
Definition holding_world : World state :=
  mkWorld [(room1_id, room1_doc 19)] [].

Definition methods (w : World state) : list Method := map method (log w).
End RefBroker.

(** ** More of the entity model ([orionldclient/model/entity.py]) *)

Module EntityMore.
Import Attribute Model.

(** [getattr]: [self._payload.get(attr)], [None] on a missing key. *)
Definition getattr (self : Entity) (attr : string) : M store (option slot) :=
  let* d := read_dict (_payload self) in
  ret (dict_get attr d).

(** [entity.get(k, None)] on a dictionary object of the store. *)
Definition obj_get (entity : loc) (k : string) : M store (option slot) :=
  let* d := read_dict entity in
  ret (dict_get k d).

(** [not x] on what [get] returned: a missing key reads as [None]; a
    referenced list is falsy when it is empty. *)
Definition slot_falsy (v : option slot) : M store bool :=
  match v with
  | None => ret true
  | Some (SVal x) => ret (negb (truthy x))
  | Some (SRef l) => let* xs := read_list l in ret (negb (truthy (VList xs)))
  end.

(** [from_dict] handed a dictionary object of the store, as when it is fed
    the mapping that [to_dict] returned: the same code as
    [Model.from_dict], which reads a decoded document. *)
Definition from_dict (entity : loc) : M store Entity :=
  let* i := obj_get entity "id" in
  let* no_id := slot_falsy i in
  if no_id then raise NgsiMissingIdError
  else
    let* t := obj_get entity "type" in
    let* no_type := slot_falsy t in
    if no_type then raise NgsiMissingTypeError
    else
      let* c := obj_get entity "@context" in
      let* no_context := slot_falsy c in
      if no_context then raise NgsiMissingContextError
      else
        let* instance := Entity_init VNone VNone None false in
        let* d := read_dict (_payload instance) in
        let* other := read_dict entity in
        let* _ := write_dict (_payload instance) (dict_update d other) in
        ret instance.

End EntityMore.

(** ** More of the entities endpoint ([ngsildclient/api/entities.py]) *)

Module EndpointMore.
Import Attribute Api.

(** Modelled from the spec: [ENDPOINT_ENTITIES] of [api/constants.py], which
    is not among the sources; the spec gives the entity endpoint as
    [<scheme>://<host>:<port>/ngsi-ld/v1/entities/<urn>]. *)
Definition ENDPOINT_ENTITIES : string := "ngsi-ld/v1/entities".

Definition to_broker_url (self : Entities) (entity : EntityOrId) : string :=
  let eid := eid_of entity in
  "http://" ++ Client.hostname (_client self) ++ ":"
    ++ pretty (Client.port (_client self)) ++ "/" ++ ENDPOINT_ENTITIES
    ++ "/" ++ eid.

Section Get.
Variable W : Type.
Variable send : Request -> W -> Response * W.
Variable Entity_from_dict : pyval -> result Entity.

(** [get] returns the decoded document when [asdict], an entity otherwise. *)
Definition get (self : Entities) (entity : EntityOrId) (ctx : option string)
    (asdict : bool) : M (World W) (pyval + Entity) :=
  rfc7807_error_handle W (
    let eid := eid_of entity in
    let hs := accept_headers "application/ld+json" ctx in
    let* r := session_get W send (url self ++ "/" ++ eid) hs [] in
    let* _ := raise_for_status W (_client self) r in
    let* doc := response_json W r in
    if asdict then ret (inl doc)
    else
      let* e := lift (Entity_from_dict doc) in
      ret (inr e)).
End Get.

End EndpointMore.

(** * Properties *)

(** ** Dictionaries *)

Section DictFacts.
Context {V : Type}.
Implicit Types (d other : dict V) (k : string) (v : V).

Lemma dict_get_set k k' v d :
  dict_get k (dict_set k' v d) = if String.eqb k k' then Some v else dict_get k d.
Proof.
  induction d as [|[k0 v0] d IH]; simpl.
  - destruct (String.eqb_spec k k'); reflexivity.
  - destruct (String.eqb_spec k' k0) as [->|Hne]; simpl.
    + destruct (String.eqb_spec k k0); reflexivity.
    + destruct (String.eqb_spec k k0) as [->|Hne'].
      * destruct (String.eqb_spec k0 k'); [congruence | reflexivity].
      * exact IH.
Qed.

Lemma dict_get_set_eq k v d : dict_get k (dict_set k v d) = Some v.
Proof. rewrite dict_get_set, String.eqb_refl. reflexivity. Qed.

Lemma dict_get_set_ne k k' v d :
  k <> k' -> dict_get k (dict_set k' v d) = dict_get k d.
Proof.
  intros Hne. rewrite dict_get_set.
  destruct (String.eqb_spec k k'); [contradiction | reflexivity].
Qed.

Lemma dict_get_None k d : dict_get k d = None <-> k ∉ dict_keys d.
Proof.
  induction d as [|[k0 v0] d IH]; simpl.
  - split; [intros _; apply not_elem_of_nil | reflexivity].
  - rewrite not_elem_of_cons.
    destruct (String.eqb_spec k k0) as [->|Hne].
    + split; [discriminate | intros [H _]; contradiction].
    + rewrite IH. tauto.
Qed.

Lemma dict_get_Some_elem k v d : dict_get k d = Some v -> k ∈ dict_keys d.
Proof.
  intros H. destruct (decide (k ∈ dict_keys d)) as [Hin|Hout].
  - exact Hin.
  - apply dict_get_None in Hout. congruence.
Qed.

(** [d |= other] reads as [other] where [other] has the key, as [d]
    elsewhere. *)
Lemma dict_get_update k d other :
  dict_wf other ->
  dict_get k (dict_update d other)
  = match dict_get k other with Some v => Some v | None => dict_get k d end.
Proof.
  unfold dict_update, dict_wf, dict_keys.
  revert d. induction other as [|[k0 v0] other IH]; intros d Hwf; simpl.
  - reflexivity.
  - inversion Hwf as [|? ? Hnotin Hwf']; subst.
    rewrite IH by exact Hwf'.
    destruct (String.eqb_spec k k0) as [->|Hne].
    + apply dict_get_None in Hnotin. rewrite Hnotin. apply dict_get_set_eq.
    + rewrite dict_get_set_ne by exact Hne. reflexivity.
Qed.

(** [d |= other] leaves alone what [other] has no entry for. *)
Lemma dict_get_update_absent k d other :
  dict_get k other = None ->
  dict_get k (dict_update d other) = dict_get k d.
Proof.
  unfold dict_update. revert d.
  induction other as [|[k0 v0] other IH]; intros d Hk; simpl in *.
  - reflexivity.
  - destruct (String.eqb_spec k k0) as [->|Hne]; [discriminate|].
    rewrite IH by exact Hk. apply dict_get_set_ne. exact Hne.
Qed.

Lemma dict_keys_set k v d :
  dict_keys (dict_set k v d)
  = if dict_mem k d then dict_keys d else (dict_keys d ++ [k])%list.
Proof.
  unfold dict_mem. induction d as [|[k0 v0] d IH]; simpl.
  - reflexivity.
  - destruct (String.eqb_spec k k0) as [->|Hne]; simpl.
    + reflexivity.
    + rewrite IH. destruct (dict_get k d); reflexivity.
Qed.

Lemma dict_get_del_ne k k' d :
  k <> k' -> dict_get k (dict_del k' d) = dict_get k d.
Proof.
  intros Hne. induction d as [|[k0 v0] d IH]; simpl.
  - reflexivity.
  - destruct (String.eqb_spec k' k0) as [->|Hne0]; simpl.
    + destruct (String.eqb_spec k k0); [contradiction | reflexivity].
    + rewrite IH. reflexivity.
Qed.

(** Deleting the key of a well-formed dictionary leaves the other keys,
    in their order. *)
Lemma dict_keys_del k d :
  dict_wf d ->
  dict_keys (dict_del k d)
  = List.filter (fun k' => negb (String.eqb k' k)) (dict_keys d).
Proof.
  unfold dict_wf, dict_keys.
  induction d as [|[k0 v0] d IH]; intros Hwf; simpl.
  - reflexivity.
  - inversion Hwf as [|? ? Hnotin Hwf']; subst.
    destruct (String.eqb_spec k k0) as [->|Hne]; simpl.
    + rewrite String.eqb_refl. simpl.
      clear IH Hwf Hwf'. induction d as [|[k1 v1] d IH]; simpl.
      * reflexivity.
      * simpl in Hnotin. apply not_elem_of_cons in Hnotin as [Hne1 Hnotin].
        destruct (String.eqb_spec k1 k0) as [->|_]; simpl.
        -- contradiction.
        -- f_equal. apply IH. exact Hnotin.
    + destruct (String.eqb_spec k0 k); [congruence|]. simpl.
      f_equal. apply IH. exact Hwf'.
Qed.

Lemma dict_get_del_eq k d : dict_wf d -> dict_get k (dict_del k d) = None.
Proof.
  intros Hwf. apply dict_get_None. rewrite dict_keys_del by exact Hwf.
  rewrite list_elem_of_In, filter_In. intros [_ H].
  rewrite String.eqb_refl in H. discriminate.
Qed.
End DictFacts.

(** ** Attribute builders *)

Module AttributeFacts.
Import Attribute.

(** The inputs [build_property] maps: int, float, bool, str, list, dict. *)
Definition property_input (v : pyval) : Prop :=
  (exists n, v = VInt n) \/ (exists x, v = VFloat x) \/ (exists b, v = VBool b) \/
  (exists s, v = VStr s) \/ (exists xs, v = VList xs) \/ (exists kvs, v = VDict kvs).

Lemma is_property_value_spec v :
  is_property_value v = true <-> property_input v.
Proof.
  unfold property_input. split.
  - destruct v; simpl; intros H; try discriminate; eauto 10.
  - intros [[? ->]|[[? ->]|[[? ->]|[[? ->]|[[? ->]|[? ->]]]]]]; reflexivity.
Qed.



Section Builders.
Variable from_datetime : datetime -> string.

(** What [if userdata: property |= userdata] leaves under a key. *)
Definition merged (property userdata : NgsiDict) : NgsiDict :=
  if truthy (VDict userdata) then dict_update property userdata else property.

Lemma dict_get_merged k property userdata :
  dict_wf userdata ->
  dict_get k (merged property userdata)
  = match dict_get k userdata with
    | Some v => Some v
    | None => dict_get k property
    end.
Proof.
  intros Hwf. unfold merged. destruct userdata as [|kv userdata].
  - reflexivity.
  - simpl truthy. cbv iota. apply dict_get_update. exact Hwf.
Qed.

(** The document of [build_property] before userdata is merged. *)
Definition property_core (value unitcode observedat : pyval)
    (datasetid : option string) : NgsiDict :=
  match build_property from_datetime value unitcode observedat datasetid [] with
  | Ok doc => doc
  | Raise _ => []
  end.

Lemma build_property_unfold value unitcode observedat datasetid userdata :
  build_property from_datetime value unitcode observedat datasetid userdata
  = if is_property_value value
    then Ok (merged (property_core value unitcode observedat datasetid) userdata)
    else Raise NgsiUnmatchedAttributeTypeError.
Proof.
  unfold property_core, build_property, merged.
  destruct (is_property_value value); reflexivity.
Qed.

Lemma property_core_type value unitcode observedat datasetid :
  is_property_value value = true ->
  dict_get "type" (property_core value unitcode observedat datasetid)
  = Some (VStr AttrType_PROP).
Proof.
  intros Hv. unfold property_core, build_property. rewrite Hv.
  destruct unitcode, observedat, datasetid; reflexivity.
Qed.

Lemma property_core_value value unitcode observedat datasetid :
  is_property_value value = true ->
  dict_get "value" (property_core value unitcode observedat datasetid)
  = Some value.
Proof.
  intros Hv. unfold property_core, build_property. rewrite Hv.
  destruct unitcode, observedat, datasetid; reflexivity.
Qed.



(** The document of [build_relationship] before userdata is merged. *)
Definition relationship_core (value : string) (observedat : pyval) : NgsiDict :=
  match build_relationship from_datetime value observedat [] with
  | Ok doc => doc
  | Raise _ => []
  end.

Lemma build_relationship_unfold value observedat userdata :
  build_relationship from_datetime value observedat userdata
  = Ok (merged (relationship_core value observedat) userdata).
Proof. reflexivity. Qed.

(** C4, as amended.  The merge of userdata is last-write-wins: after
    [build_property] (resp. [build_relationship]) the entry under [type]
    and under [value] (resp. [object]) is the builder's own exactly when
    userdata has no entry under that key, and is userdata's entry
    otherwise.  [build_property] raises only on an unmappable value. *)
Theorem userdata_merge_last_write_wins
    (value unitcode observedat : pyval) (datasetid : option string)
    (target : string) (userdata : NgsiDict) :
  dict_wf userdata ->
  match build_property from_datetime value unitcode observedat datasetid userdata with
  | Ok doc =>
      dict_get "type" doc
        = Some (default (VStr AttrType_PROP) (dict_get "type" userdata)) /\
      dict_get "value" doc
        = Some (default value (dict_get "value" userdata))
  | Raise e =>
      is_property_value value = false /\ e = NgsiUnmatchedAttributeTypeError
  end /\
  exists doc,
    build_relationship from_datetime target observedat userdata = Ok doc /\
    dict_get "type" doc
      = Some (default (VStr AttrType_REL) (dict_get "type" userdata)) /\
    dict_get "object" doc
      = Some (default (VStr (urnprefix target)) (dict_get "object" userdata)).
Proof.
  intros Hwf. split.
  - rewrite build_property_unfold.
    destruct (is_property_value value) eqn:Hv; [|split; reflexivity].
    rewrite !dict_get_merged by exact Hwf.
    rewrite property_core_type, property_core_value by exact Hv.
    split.
    + destruct (dict_get "type" userdata); reflexivity.
    + destruct (dict_get "value" userdata); reflexivity.
  - eexists. split; [apply build_relationship_unfold|].
    rewrite !dict_get_merged by exact Hwf.
    split.
    + destruct (dict_get "type" userdata); [reflexivity|].
      destruct observedat; reflexivity.
    + destruct (dict_get "object" userdata); [reflexivity|].
      destruct observedat; reflexivity.
Qed.


Lemma dict_get_merged_absent k property userdata :
  dict_get k userdata = None ->
  dict_get k (merged property userdata) = dict_get k property.
Proof.
  intros Hk. unfold merged. destruct (truthy (VDict userdata)); [|reflexivity].
  apply dict_get_update_absent. exact Hk.
Qed.

(** C8, as amended.  For every userdata that has no [type] and no [value]
    entry, the default empty one included, and with any metadata,
    [build_property] returns a document whose [type] is ["Property"] and
    whose [value] is the input exactly when the input is an int, float,
    bool, str, list or dict; on every other input it raises
    [NgsiUnmatchedAttributeTypeError]. *)
Theorem build_property_accepts_exactly
    (value unitcode observedat : pyval) (datasetid : option string)
    (userdata : NgsiDict) :
  dict_get "type" userdata = None ->
  dict_get "value" userdata = None ->
  (property_input value /\
   exists doc,
     build_property from_datetime value unitcode observedat datasetid userdata
     = Ok doc /\
     dict_get "type" doc = Some (VStr "Property") /\
     dict_get "value" doc = Some value)
  \/
  (~ property_input value /\
   build_property from_datetime value unitcode observedat datasetid userdata
   = Raise NgsiUnmatchedAttributeTypeError).
Proof.
  intros Htype Hvalue. rewrite build_property_unfold.
  destruct (is_property_value value) eqn:Hv.
  - left. split; [apply is_property_value_spec; exact Hv|].
    eexists. split; [reflexivity|].
    rewrite !dict_get_merged_absent by assumption.
    rewrite property_core_type, property_core_value by exact Hv.
    split; reflexivity.
  - right. split; [|reflexivity].
    rewrite <- is_property_value_spec. congruence.
Qed.

(** On an input that is none of these, [build_property] raises whatever
    the userdata. *)
Lemma build_property_rejects_other_values
    (value unitcode observedat : pyval) (datasetid : option string)
    (userdata : NgsiDict) :
  ~ property_input value ->
  build_property from_datetime value unitcode observedat datasetid userdata
  = Raise NgsiUnmatchedAttributeTypeError.
Proof.
  intros Hn. rewrite build_property_unfold.
  destruct (is_property_value value) eqn:Hv; [|reflexivity].
  exfalso. apply Hn. apply is_property_value_spec. exact Hv.
Qed.
End Builders.

(** C4, witness: userdata with a field of its own and a [type] field. *)
Lemma userdata_merge_last_write_wins_witness :
  dict_wf [("unit", VStr "celsius"); ("type", VStr "Fake")] /\
  (match build_property Iso8601.from_datetime (VInt 1) VNone VNone None
           [("unit", VStr "celsius"); ("type", VStr "Fake")] with
   | Ok doc =>
       dict_get "type" doc = Some (VStr "Fake") /\
       dict_get "value" doc = Some (VInt 1)
   | Raise e => False
   end).
Proof.
  assert (Hwf : dict_wf [("unit", VStr "celsius"); ("type", VStr "Fake")]).
  { unfold dict_wf. refine (bool_decide_unpack _ _). vm_compute. exact I. }
  split; [exact Hwf|].
  pose proof (userdata_merge_last_write_wins Iso8601.from_datetime
                (VInt 1) VNone VNone None "Room1"
                [("unit", VStr "celsius"); ("type", VStr "Fake")] Hwf) as [H _].
  exact H.
Defined.

(** C4, counterexample: a [type] and a [value] field in userdata replace
    the builder's, in both builders. *)
Lemma userdata_overwrites_reserved_keys :
  (exists doc,
     build_property Iso8601.from_datetime (VInt 1) VNone VNone None
       [("type", VStr "Fake"); ("value", VInt 2)] = Ok doc /\
     dict_get "type" doc <> Some (VStr AttrType_PROP) /\
     dict_get "value" doc <> Some (VInt 1)) /\
  (exists doc,
     build_relationship Iso8601.from_datetime "Room1" VNone
       [("type", VStr "Fake"); ("object", VStr "nowhere")] = Ok doc /\
     dict_get "type" doc <> Some (VStr AttrType_REL) /\
     dict_get "object" doc <> Some (VStr (urnprefix "Room1"))).
Proof.
  split; eexists; (split; [reflexivity|]); split; discriminate.
Qed.


(** C8, witness: a temperature with a field of the caller's own. *)
Lemma build_property_accepts_exactly_witness :
  (dict_get "type" [("unit", VStr "celsius")] = None /\
   dict_get "value" [("unit", VStr "celsius")] = None) /\
  exists doc,
    build_property Iso8601.from_datetime (VInt 23) VNone VNone None
      [("unit", VStr "celsius")] = Ok doc /\
    dict_get "type" doc = Some (VStr "Property") /\
    dict_get "value" doc = Some (VInt 23).
Proof.
  split; [split; reflexivity|].
  destruct (build_property_accepts_exactly Iso8601.from_datetime (VInt 23)
              VNone VNone None [("unit", VStr "celsius")] eq_refl eq_refl)
    as [[_ H]|[Hn _]].
  - exact H.
  - exfalso. apply Hn. left. exists 23. reflexivity.
Defined.

(** C8, counterexample: the input is a string, and the document that
    [build_property] returns has neither the type ["Property"] nor the
    input as its value, because userdata carries both keys. *)
Lemma build_property_value_replaced_by_userdata :
  property_input (VStr "warm") /\
  exists doc,
    build_property Iso8601.from_datetime (VStr "warm") VNone VNone None
      [("value", VInt 2); ("type", VStr "Fake")] = Ok doc /\
    dict_get "type" doc <> Some (VStr "Property") /\
    dict_get "value" doc <> Some (VStr "warm").
Proof.
  split; [right; right; right; left; eexists; reflexivity|].
  eexists. split; [reflexivity|]. split; discriminate.
Qed.

End AttributeFacts.


(** ** ContextBuilder and Entity *)

Module ModelFacts.
Import Attribute Model.
Local Open Scope list_scope.

Lemma read_dict_run (s : store) (p : loc) (d : dict slot) :
  dicts s !! p = Some d -> read_dict p s = (Ok d, s).
Proof. intros H. unfold read_dict. rewrite H. reflexivity. Qed.

Lemma read_list_run (s : store) (l : loc) (xs : list pyval) :
  lists s !! l = Some xs -> read_list l s = (Ok xs, s).
Proof. intros H. unfold read_list. rewrite H. reflexivity. Qed.

Lemma lookup_snoc {A} (l : list A) (x : A) : (l ++ [x]) !! length l = Some x.
Proof. rewrite lookup_app_r by lia. rewrite Nat.sub_diag. reflexivity. Qed.

Lemma insert_snoc {A} (l : list A) (x y : A) :
  <[length l := y]> (l ++ [x]) = l ++ [y].
Proof.
  replace (length l) with (length l + 0)%nat at 1 by lia.
  rewrite insert_app_r. reflexivity.
Qed.

(** *** from_dict *)

(** A key is missing for [from_dict] when [entity.get(k, None)] is falsy:
    the key is absent, or bound to [None], [""], [0], [[]], [{}] ... *)
Definition missing (k : string) (entity : dict pyval) : bool :=
  negb (truthy (get_or_None k entity)).

Lemma absent_is_missing k entity : dict_get k entity = None -> missing k entity = true.
Proof. intros H. unfold missing, get_or_None. rewrite H. reflexivity. Qed.

Lemma not_missing_present k entity :
  missing k entity = false -> exists v, dict_get k entity = Some v.
Proof.
  unfold missing, get_or_None. destruct (dict_get k entity) as [v|]; [eauto|].
  simpl. discriminate.
Qed.

Lemma dict_keys_as_slots entity : dict_keys (as_slots entity) = dict_keys entity.
Proof.
  unfold dict_keys, as_slots. rewrite map_map. reflexivity.
Qed.

Lemma dict_get_as_slots k entity :
  dict_get k (as_slots entity) = SVal <$> dict_get k entity.
Proof.
  induction entity as [|[k0 v0] entity IH]; simpl; [reflexivity|].
  destruct (String.eqb k k0); [reflexivity | exact IH].
Qed.

(** The payload [from_dict] starts from: that of [cls(None, None)]. *)
Definition blank_payload : dict slot :=
  [ (META_ATTR_CONTEXT, SRef Entity_default_context);
    ("id", SVal (Urn_prefix VNone)); ("type", SVal VNone) ].

Lemma from_dict_run (entity : dict pyval) (s : store) :
  from_dict entity s
  = if missing "id" entity then (Raise NgsiMissingIdError, s)
    else if missing "type" entity then (Raise NgsiMissingTypeError, s)
    else if missing "@context" entity then (Raise NgsiMissingContextError, s)
    else (Ok {| _payload := length (dicts s); contextfirst := false |},
          {| lists := lists s;
             dicts := dicts s ++ [dict_update blank_payload (as_slots entity)] |}).
Proof.
  unfold from_dict, missing.
  destruct (negb (truthy (get_or_None "id" entity))); [reflexivity|].
  destruct (negb (truthy (get_or_None "type" entity))); [reflexivity|].
  destruct (negb (truthy (get_or_None "@context" entity))); [reflexivity|].
  unfold Entity_init, bind, alloc_dict, ret, read_dict, write_dict. simpl.
  rewrite lookup_snoc. simpl. rewrite insert_snoc. reflexivity.
Qed.

(** C7, as amended.  [from_dict] raises [NgsiMissingIdError] when [id] is
    absent or falsy; otherwise [NgsiMissingTypeError] when [type] is absent
    or falsy; otherwise [NgsiMissingContextError] when [@context] is absent
    or falsy.  Otherwise it succeeds: the entity is a fresh one (a new
    payload object, nothing else in the store changes) and its payload
    holds the supplied fields, all of them and no other, with the values
    as supplied. *)
Theorem from_dict_checks_then_copies (entity : dict pyval) (s : store) :
  dict_wf entity ->
  (forall k, dict_get k entity = None -> missing k entity = true) /\
  exists payload,
    from_dict entity s
    = (if missing "id" entity then (Raise NgsiMissingIdError, s)
       else if missing "type" entity then (Raise NgsiMissingTypeError, s)
       else if missing "@context" entity then (Raise NgsiMissingContextError, s)
       else (Ok {| _payload := length (dicts s); contextfirst := false |},
             {| lists := lists s; dicts := dicts s ++ [payload] |})) /\
    (missing "id" entity = false -> missing "type" entity = false ->
     missing "@context" entity = false ->
     forall k, dict_get k payload = SVal <$> dict_get k entity).
Proof.
  intros Hwf. split; [intros k; apply absent_is_missing|].
  exists (dict_update blank_payload (as_slots entity)).
  split; [apply from_dict_run|].
  intros Hid Hty Hctx k.
  apply not_missing_present in Hid as [vi Hid].
  apply not_missing_present in Hty as [vt Hty].
  apply not_missing_present in Hctx as [vc Hctx].
  rewrite dict_get_update
    by (unfold dict_wf; rewrite dict_keys_as_slots; exact Hwf).
  rewrite dict_get_as_slots.
  destruct (dict_get k entity) as [v|] eqn:Hk; [reflexivity|]. simpl.
  unfold blank_payload, META_ATTR_CONTEXT. simpl.
  destruct (String.eqb_spec k "@context") as [->|_]; [congruence|].
  destruct (String.eqb_spec k "id") as [->|_]; [congruence|].
  destruct (String.eqb_spec k "type") as [->|_]; [congruence|].
  reflexivity.
Qed.

(** The document of the witness: a room with one attribute. *)
Definition room_doc : dict pyval :=
  [ ("id", VStr "urn:ngsi-ld:RoomObserved:Room1");
    ("type", VStr "RoomObserved");
    ("temperature", VDict [("type", VStr "Property"); ("value", VInt 23)]);
    ("@context", VList [VStr "https://schema.lab.fiware.org/ld/context"]) ].

(** C7, witness: a complete document is rehydrated; its fields are read
    back from the new payload. *)
Lemma from_dict_checks_then_copies_witness :
  dict_wf room_doc /\
  exists payload,
    from_dict room_doc module_store
    = (Ok {| _payload := 0%nat; contextfirst := false |},
       {| lists := lists module_store; dicts := [payload] |}) /\
    forall k, dict_get k payload = SVal <$> dict_get k room_doc.
Proof.
  assert (Hwf : dict_wf room_doc).
  { unfold dict_wf. refine (bool_decide_unpack _ _). vm_compute. exact I. }
  split; [exact Hwf|].
  destruct (from_dict_checks_then_copies room_doc module_store Hwf)
    as [_ [payload [Hrun Hget]]].
  exists payload. split; [exact Hrun|].
  apply Hget; reflexivity.
Defined.

(** C7, counterexample: [id], [type] and [@context] are all present, yet
    [from_dict] fails, because the id is the empty string. *)
Lemma from_dict_rejects_present_but_empty_id :
  let entity := [ ("id", VStr EmptyString); ("type", VStr "RoomObserved");
                  ("@context", VList [VStr "https://schema.lab.fiware.org/ld/context"]) ] in
  dict_mem "id" entity = true /\ dict_mem "type" entity = true /\
  dict_mem "@context" entity = true /\
  from_dict entity module_store = (Raise NgsiMissingIdError, module_store).
Proof. repeat split. Qed.

(** *** The shared default context *)

(** C10.  Every default-constructed ContextBuilder holds the location of
    the one class-level [DEFAULT] list.  After [add(uri)] on one of them,
    [build()] of any default-constructed ContextBuilder names a list that
    ends with [uri], and so does the context of every Entity created with
    the default [context] argument. *)
Theorem default_context_is_shared (s : store) (uris : list pyval) (uri : string) :
  lists s !! DEFAULT = Some uris ->
  exists s',
    add (ContextBuilder_init None) uri s = (Ok (ContextBuilder_init None), s') /\
    build (ContextBuilder_init None) = DEFAULT /\
    read_list (build (ContextBuilder_init None)) s' = (Ok (uris ++ [VStr uri]), s') /\
    VStr uri ∈ uris ++ [VStr uri] /\
    forall (id type : pyval) (contextfirst : bool),
    exists e s'',
      Entity_init id type None contextfirst s' = (Ok e, s'') /\
      Entity_context e s'' = (Ok (SRef DEFAULT), s'') /\
      read_list DEFAULT s'' = (Ok (uris ++ [VStr uri]), s'').
Proof.
  intros Hdef.
  assert (Hlt : (DEFAULT < length (lists s))%nat)
    by (apply lookup_lt_is_Some; eauto).
  eexists. split; [|split; [reflexivity|]].
  - unfold add, bind. simpl _ctx. rewrite (read_list_run _ _ _ Hdef). reflexivity.
  - assert (Hnew : <[DEFAULT := uris ++ [VStr uri]]> (lists s) !! DEFAULT
                   = Some (uris ++ [VStr uri]))
      by (apply list_lookup_insert_eq; exact Hlt).
    split; [apply read_list_run; exact Hnew|].
    split; [apply elem_of_app; right; apply list_elem_of_singleton; reflexivity|].
    intros id type cf. eexists. eexists.
    split; [reflexivity|]. split.
    + unfold Entity_context, dict_getitem, bind. simpl.
      erewrite read_dict_run by (simpl; apply lookup_snoc). reflexivity.
    + apply read_list_run. exact Hnew.
Qed.

(** C10, witness: right after import, adding a URI through one default
    builder shows in the default context of a new entity. *)
Lemma default_context_is_shared_witness :
  lists module_store !! DEFAULT = Some DEFAULT_uris /\
  exists s',
    add (ContextBuilder_init None) "https://example.org/ctx" module_store
      = (Ok (ContextBuilder_init None), s') /\
    read_list (build (ContextBuilder_init None)) s'
      = (Ok (DEFAULT_uris ++ [VStr "https://example.org/ctx"]), s').
Proof.
  split; [reflexivity|].
  destruct (default_context_is_shared module_store DEFAULT_uris
              "https://example.org/ctx" eq_refl) as [s' [Hadd [_ [Hread _]]]].
  exists s'. split; [exact Hadd | exact Hread].
Defined.

(** *** to_dict *)

(** Every list a payload refers to is allocated. *)
Definition refs_valid (L : list (list pyval)) (d : dict slot) : Prop :=
  forall k l, (k, SRef l) ∈ d -> is_Some (L !! l).

(** [b] is a deep copy, in the lists [L'], of the entry [a] of the lists
    [L0]: equal data, and for a referenced list a new list object of equal
    content. *)
Definition slot_copy (L0 L' : list (list pyval)) (a b : slot) : Prop :=
  match a, b with
  | SVal v, SVal v' => v = v'
  | SRef l, SRef l' =>
      (length L0 <= l')%nat /\ exists xs, L0 !! l = Some xs /\ L' !! l' = Some xs
  | _, _ => False
  end.

Definition memo_ok (L0 L : list (list pyval)) (memo : list (loc * loc)) : Prop :=
  forall l l', memo_get l memo = Some l' ->
    (length L0 <= l')%nat /\ exists xs, L0 !! l = Some xs /\ L !! l' = Some xs.

Definition items_copy (L0 L' : list (list pyval)) (d d' : dict slot) : Prop :=
  Forall2 (fun a b => fst a = fst b /\ slot_copy L0 L' (snd a) (snd b)) d d'.

Lemma slot_copy_grow L0 L extra a b :
  slot_copy L0 L a b -> slot_copy L0 (L ++ extra) a b.
Proof.
  destruct a, b; simpl; try tauto.
  intros [Hle [xs [H0 H1]]]. split; [exact Hle|].
  exists xs. split; [exact H0|]. apply lookup_app_l_Some. exact H1.
Qed.

Lemma memo_ok_grow L0 L extra memo :
  memo_ok L0 L memo -> memo_ok L0 (L ++ extra) memo.
Proof.
  intros H l l' Hget. destruct (H l l' Hget) as [Hle [xs [H0 H1]]].
  split; [exact Hle|]. exists xs. split; [exact H0|].
  apply lookup_app_l_Some. exact H1.
Qed.

Lemma deepcopy_slot_spec L0 L D v memo :
  L0 `prefix_of` L ->
  (forall l, v = SRef l -> is_Some (L0 !! l)) ->
  memo_ok L0 L memo ->
  exists v' memo' extra,
    deepcopy_slot v memo {| lists := L; dicts := D |}
    = (Ok (v', memo'), {| lists := L ++ extra; dicts := D |}) /\
    slot_copy L0 (L ++ extra) v v' /\ memo_ok L0 (L ++ extra) memo'.
Proof.
  intros Hpre Hvalid Hmemo. destruct v as [x|l]; simpl.
  - exists (SVal x), memo, []. rewrite app_nil_r.
    split; [reflexivity|]. split; [reflexivity | exact Hmemo].
  - destruct (memo_get l memo) as [l'|] eqn:Hget.
    + exists (SRef l'), memo, []. rewrite app_nil_r.
      split; [reflexivity|]. split; [|exact Hmemo].
      exact (Hmemo l l' Hget).
    + destruct (Hvalid l eq_refl) as [xs Hxs].
      assert (HL : L !! l = Some xs) by (eapply prefix_lookup_Some; eauto).
      exists (SRef (length L)), ((l, length L) :: memo), [xs].
      split.
      * unfold bind, read_list, alloc_list. simpl. rewrite HL. reflexivity.
      * assert (Hle : (length L0 <= length L)%nat) by (apply prefix_length; exact Hpre).
        split.
        -- simpl. split; [exact Hle|]. exists xs. split; [exact Hxs|].
           apply lookup_snoc.
        -- intros l1 l1'. simpl. destruct (Nat.eqb_spec l1 l) as [->|Hne].
           ++ intros [= <-]. split; [exact Hle|]. exists xs.
              split; [exact Hxs | apply lookup_snoc].
           ++ intros Hg. apply (memo_ok_grow L0 L [xs] memo Hmemo). exact Hg.
Qed.

Lemma deepcopy_items_spec L0 D items :
  forall L memo,
  L0 `prefix_of` L ->
  refs_valid L0 items ->
  memo_ok L0 L memo ->
  exists items' extra,
    deepcopy_items items memo {| lists := L; dicts := D |}
    = (Ok items', {| lists := L ++ extra; dicts := D |}) /\
    items_copy L0 (L ++ extra) items items'.
Proof.
  induction items as [|[k v] items IH]; intros L memo Hpre Hvalid Hmemo.
  - exists [], []. rewrite app_nil_r. split; [reflexivity | constructor].
  - destruct (deepcopy_slot_spec L0 L D v memo Hpre) as
      [v' [memo' [e1 [Hrun1 [Hcopy1 Hmemo1]]]]]; [|exact Hmemo|].
    { intros l ->. apply (Hvalid k l). apply elem_of_cons. now left. }
    destruct (IH (L ++ e1) memo') as [items' [e2 [Hrun2 Hcopy2]]].
    { apply prefix_app_r. exact Hpre. }
    { intros k0 l0 Hin. apply (Hvalid k0 l0). apply elem_of_cons. now right. }
    { exact Hmemo1. }
    exists ((k, v') :: items'), (e1 ++ e2). split.
    + simpl. unfold bind at 1. rewrite Hrun1. simpl.
      unfold bind at 1. rewrite Hrun2. simpl. rewrite app_assoc. reflexivity.
    + rewrite app_assoc. constructor; [|exact Hcopy2].
      simpl. split; [reflexivity|]. apply slot_copy_grow. exact Hcopy1.
Qed.

Lemma items_copy_keys L0 L' d d' : items_copy L0 L' d d' -> dict_keys d' = dict_keys d.
Proof.
  unfold dict_keys. induction 1 as [|a b d d' [Hk _] _ IH]; simpl;
    [reflexivity | now rewrite IH, Hk].
Qed.

Lemma items_copy_get L0 L' d d' k :
  items_copy L0 L' d d' ->
  option_Forall2 (slot_copy L0 L') (dict_get k d) (dict_get k d').
Proof.
  induction 1 as [|[ka va] [kb vb] d d' [Hk Hv] _ IH]; simpl in *.
  - constructor.
  - subst kb. destruct (String.eqb k ka); [constructor; exact Hv | exact IH].
Qed.

(** The claim of C5 on the returned mapping: [to_dict] returns, and no
    write to the returned dictionary changes the payload the entity
    stores. *)
Definition returns_defensive_copy (self : Entity) (contextfirst : bool)
    (s : store) : Prop :=
  exists q s',
    to_dict self contextfirst s = (Ok q, s') /\
    forall d'' s'', write_dict q d'' s' = (Ok tt, s'') ->
      dicts s'' !! _payload self = dicts s !! _payload self.

Definition not_context (k : string) : bool := negb (String.eqb k "@context").

(** C5, as amended.  With [contextfirst] false, [to_dict] returns a new
    dictionary, a copy of the payload: no write to it changes the payload
    the entity stores, its keys are the payload's other keys in their order
    followed by [@context], every other entry is a deep copy, and
    [@context] holds the entity's context.  With [contextfirst] true,
    [to_dict] returns the stored payload itself, not a copy. *)
Theorem to_dict_copies_unless_contextfirst
    (s : store) (self : Entity) (d : dict slot) (ctx : slot) :
  dicts s !! _payload self = Some d ->
  dict_wf d ->
  dict_get META_ATTR_CONTEXT d = Some ctx ->
  refs_valid (lists s) d ->
  to_dict self true s = (Ok (_payload self), s) /\
  returns_defensive_copy self false s /\
  exists d' extra,
    to_dict self false s
    = (Ok (length (dicts s)),
       {| lists := lists s ++ extra; dicts := dicts s ++ [d'] |}) /\
    length (dicts s) <> _payload self /\
    dict_keys d' = List.filter not_context (dict_keys d) ++ [META_ATTR_CONTEXT] /\
    dict_get META_ATTR_CONTEXT d' = Some ctx /\
    forall k, k <> META_ATTR_CONTEXT ->
      option_Forall2 (slot_copy (lists s) (lists s ++ extra))
        (dict_get k d) (dict_get k d').
Proof.
  intros Hd Hwf Hctx Hvalid.
  assert (Hlt : (_payload self < length (dicts s))%nat)
    by (apply lookup_lt_is_Some; eauto).
  destruct (deepcopy_items_spec (lists s) (dicts s) d (lists s) [])
    as [d1 [extra [Hrun Hcopy]]];
    [reflexivity | exact Hvalid | intros ? ? [=] |].
  pose proof (items_copy_keys _ _ _ _ Hcopy) as Hkeys.
  assert (Hwf1 : dict_wf d1) by (unfold dict_wf; rewrite Hkeys; exact Hwf).
  assert (Hmem1 : dict_mem META_ATTR_CONTEXT d1 = true).
  { unfold dict_mem. pose proof (items_copy_get _ _ _ _ META_ATTR_CONTEXT Hcopy) as H.
    rewrite Hctx in H. inversion H. reflexivity. }
  set (d' := dict_set META_ATTR_CONTEXT ctx (dict_del META_ATTR_CONTEXT d1)).
  assert (Hto : to_dict self false s
                = (Ok (length (dicts s)),
                   {| lists := lists s ++ extra; dicts := dicts s ++ [d'] |})).
  { unfold to_dict, dict_getitem, deepcopy.
    unfold bind at 1. unfold bind at 1. rewrite (read_dict_run _ _ _ Hd).
    rewrite Hctx. unfold ret at 1.
    unfold bind at 1. unfold bind at 1. rewrite (read_dict_run _ _ _ Hd).
    unfold bind at 1. destruct s as [L D]. simpl in *. rewrite Hrun.
    unfold alloc_dict at 1. simpl.
    unfold bind at 1. unfold dict_delitem, bind at 1. unfold read_dict at 1. simpl.
    rewrite lookup_snoc, Hmem1. unfold write_dict at 1. simpl.
    rewrite insert_snoc.
    unfold bind at 1. unfold dict_setitem, bind at 1. unfold read_dict at 1. simpl.
    rewrite lookup_snoc. unfold write_dict at 1. simpl.
    rewrite insert_snoc. reflexivity. }
  split; [reflexivity|]. split.
  - exists (length (dicts s)). eexists. split; [exact Hto|].
    intros d'' s'' Hw. unfold write_dict in Hw. simpl in Hw.
    injection Hw as <-. simpl. rewrite insert_snoc.
    apply lookup_app_l. exact Hlt.
  - exists d', extra. split; [exact Hto|]. split; [lia|]. split; [|split].
    + unfold d'. rewrite dict_keys_set. unfold dict_mem.
      rewrite dict_get_del_eq by exact Hwf1.
      rewrite dict_keys_del by exact Hwf1. rewrite Hkeys. reflexivity.
    + unfold d'. apply dict_get_set_eq.
    + intros k Hk. unfold d'.
      rewrite dict_get_set_ne, dict_get_del_ne by exact Hk.
      apply items_copy_get. exact Hcopy.
Qed.

(** The entity of the witness and of the counterexample: [Room1], created
    with the default context right after import. *)
Definition room_entity : Entity := {| _payload := 0%nat; contextfirst := false |}.
Definition room_payload : dict slot :=
  [ (META_ATTR_CONTEXT, SRef DEFAULT);
    ("id", SVal (VStr "urn:ngsi-ld:RoomObserved:Room1"));
    ("type", SVal (VStr "RoomObserved")) ].
Definition room_store : store :=
  {| lists := lists module_store; dicts := [room_payload] |}.

Example room_entity_created :
  Entity_init (VStr "RoomObserved:Room1") (VStr "RoomObserved") None false module_store
  = (Ok room_entity, room_store).
Proof. reflexivity. Qed.

Lemma room_payload_refs_valid : refs_valid (lists room_store) room_payload.
Proof.
  intros k l Hin. apply list_elem_of_In in Hin. simpl in Hin.
  destruct Hin as [H|[H|[H|[]]]]; try discriminate H.
  injection H as _ <-. eexists. reflexivity.
Qed.

(** C5, witness: [to_dict(False)] of [Room1] is a new dictionary with
    [@context] last. *)
Lemma to_dict_copies_unless_contextfirst_witness :
  (dicts room_store !! _payload room_entity = Some room_payload /\
   dict_wf room_payload /\
   dict_get META_ATTR_CONTEXT room_payload = Some (SRef DEFAULT) /\
   refs_valid (lists room_store) room_payload) /\
  returns_defensive_copy room_entity false room_store /\
  exists d' extra,
    to_dict room_entity false room_store
    = (Ok 1%nat, {| lists := lists room_store ++ extra;
                    dicts := dicts room_store ++ [d'] |}) /\
    dict_keys d' = ["id"; "type"; "@context"].
Proof.
  assert (Hwf : dict_wf room_payload).
  { unfold dict_wf. refine (bool_decide_unpack _ _). vm_compute. exact I. }
  split; [repeat split; [exact Hwf | exact room_payload_refs_valid]|].
  destruct (to_dict_copies_unless_contextfirst room_store room_entity
              room_payload (SRef DEFAULT) eq_refl Hwf eq_refl
              room_payload_refs_valid)
    as [_ [Hdef [d' [extra [Hrun [_ [Hkeys _]]]]]]].
  split; [exact Hdef|].
  exists d', extra. split; [exact Hrun | exact Hkeys].
Defined.

(** C5, counterexample: with [contextfirst] true the returned mapping is
    the stored payload, so a write to it is a write to the entity. *)
Lemma to_dict_contextfirst_returns_the_payload :
  ~ returns_defensive_copy room_entity true room_store.
Proof.
  intros [q [s' [Hrun Hmut]]].
  injection Hrun as <- <-.
  specialize (Hmut [] _ eq_refl). discriminate Hmut.
Qed.

(** The copy made with [contextfirst] false still shares the context list
    with the entity: appending through the copy shows in the entity. *)
Example to_dict_copy_shares_the_context_list :
  exists q s1 s2,
    to_dict room_entity false room_store = (Ok q, s1) /\
    dict_getitem q META_ATTR_CONTEXT s1 = (Ok (SRef DEFAULT), s1) /\
    add (mkContextBuilder DEFAULT) "https://example.org/ctx" s1
      = (Ok (mkContextBuilder DEFAULT), s2) /\
    Entity_context room_entity s2 = (Ok (SRef DEFAULT), s2) /\
    read_list DEFAULT s2
      = (Ok (DEFAULT_uris ++ [VStr "https://example.org/ctx"]), s2).
Proof. do 3 eexists. repeat split. Qed.

End ModelFacts.


(** ** The entities endpoint *)

Module ApiFacts.
Import Attribute Api.
Local Open Scope list_scope.

Section Endpoint.
Variable W : Type.
Variable send : Request -> W -> Response * W.
Variable Entity_from_dict : pyval -> result Entity.
Variable py_int : string -> option Z.

(** The POST that [create] sends, and the world once it is answered. *)
Definition post_of (self : Entities) (entity : Entity) : Request :=
  {| method := POST; req_url := (url self ++ "/")%string; req_headers := [];
     req_params := []; req_json := Some (_payload entity) |}.

Definition after (req : Request) (w : World W) : World W :=
  {| broker := snd (send req (broker w)); log := log w ++ [req] |}.

Definition answer_to (req : Request) (w : World W) : Response :=
  fst (send req (broker w)).

Lemma session_request_run (req : Request) (w : World W) :
  session_request W send req w = (Ok (answer_to req w), after req w).
Proof.
  unfold session_request, answer_to, after.
  destruct (send req (broker w)); reflexivity.
Qed.

Lemma raise_for_status_conflict (client : Client.t) (r : Response) (w : World W) :
  status_code r = 409 ->
  raise_for_status W client r w = (Raise (HTTPError 409), w).
Proof. intros H. unfold raise_for_status. rewrite H. reflexivity. Qed.

(** [update(entity, check_exists=False)] sends nothing and returns [None]:
    the guard [check_exists and self.exists(entity)] is false. *)
Lemma update_body_unchecked create self entity (w : World W) :
  update_body W send create self entity false w = (Ok None, w).
Proof. reflexivity. Qed.

(** C1, the code on a conflict.  When the broker answers 409 to the POST,
    [create] returns [None] if [skip]; otherwise, if [overwrite] or the
    client's overwrite default is set, it calls
    [update(entity, check_exists=False)], which does nothing, and returns
    [None] having sent the POST only; otherwise it raises
    [NgsiAlreadyExistsError]. *)
Theorem create_on_conflict (fuel : nat) (self : Entities) (entity : Entity)
    (skip overwrite : bool) (w : World W) :
  status_code (answer_to (post_of self entity) w) = 409 ->
  create W send (S fuel) self entity skip overwrite w
  = if skip then (Ok None, after (post_of self entity) w)
    else if overwrite || Client.overwrite (_client self)
    then (Ok None, after (post_of self entity) w)
    else (Raise NgsiAlreadyExistsError, after (post_of self entity) w).
Proof.
  intros H409. simpl. unfold create_body, rfc7807_error_handle, session_post.
  unfold bind at 1. fold (post_of self entity). rewrite session_request_run.
  rewrite H409. simpl.
  destruct skip; [reflexivity|].
  destruct (overwrite || Client.overwrite (_client self)).
  - rewrite update_body_unchecked. reflexivity.
  - unfold create_accept, bind.
    rewrite raise_for_status_conflict by exact H409. reflexivity.
Qed.

(** C2, the code without the existence check.  For every entity and every
    broker, [update(entity, check_exists=False)] returns [None] and leaves
    the world as it was: no DELETE, no POST. *)
Theorem update_unchecked_does_nothing (fuel : nat) (self : Entities)
    (entity : Entity) (w : World W) :
  update W send fuel self entity false w = (Ok None, w).
Proof. unfold update. apply update_body_unchecked. Qed.

(** C3, the code under the client's overwrite default.  When the broker
    answers 409 to the POST and the client's overwrite default is set,
    [upsert] returns [None] having sent the POST only: [create] takes the
    overwrite path, no [NgsiAlreadyExistsError] reaches [upsert], and
    nothing is deleted or created. *)
Theorem upsert_on_conflict_under_overwrite (fuel : nat) (self : Entities)
    (entity : Entity) (w : World W) :
  status_code (answer_to (post_of self entity) w) = 409 ->
  Client.overwrite (_client self) = true ->
  upsert W send (S fuel) self entity w = (Ok None, after (post_of self entity) w).
Proof.
  intros H409 Hover. unfold upsert, rfc7807_error_handle, try_except.
  simpl. unfold create_body, rfc7807_error_handle, session_post.
  unfold bind at 1. fold (post_of self entity). rewrite session_request_run.
  rewrite H409, Hover. simpl. reflexivity.
Qed.

(** The decorator lets no [HTTPError] through. *)
Lemma rfc7807_no_HTTPError {A} (m : M (World W) A) (w : World W) (status : Z) :
  fst (rfc7807_error_handle W m w) <> Raise (HTTPError status).
Proof.
  unfold rfc7807_error_handle. destruct (m w) as [[a|e] w']; simpl.
  - discriminate.
  - destruct e; simpl; try discriminate.
    unfold classify. destruct (_ =? 409); discriminate.
Qed.

(** What follows the conflict test sends nothing and, on a status other
    than 409, does not raise [NgsiAlreadyExistsError]. *)
Lemma create_accept_log self entity r (w : World W) :
  snd (rfc7807_error_handle W (create_accept W self entity r) w) = w /\
  (status_code r <> 409 ->
   fst (rfc7807_error_handle W (create_accept W self entity r) w)
   <> Raise NgsiAlreadyExistsError).
Proof.
  unfold create_accept, bind, raise_for_status, rfc7807_error_handle.
  destruct ((200 <=? status_code r) && (status_code r <? 300)) eqn:E; simpl.
  - destruct (dict_get "Location" (headers r)) as [location|].
    + destruct (negb (String.eqb (id entity) (rsplit_last location)));
        simpl; split; try reflexivity; intros _; discriminate.
    + destruct (Client.ignore_errors (_client self));
        simpl; split; try reflexivity; intros _; discriminate.
  - split; [reflexivity|]. intros Hne. unfold classify.
    destruct (status_code r =? 409) eqn:E9; [|discriminate].
    apply Z.eqb_eq in E9. contradiction.
Qed.

Lemma create_without_conflict (fuel : nat) (self : Entities) (entity : Entity)
    (skip overwrite : bool) (w : World W) :
  status_code (answer_to (post_of self entity) w) <> 409 ->
  create W send (S fuel) self entity skip overwrite w
  = rfc7807_error_handle W
      (create_accept W self entity (answer_to (post_of self entity) w))
      (after (post_of self entity) w).
Proof.
  intros Hne. simpl. unfold create_body, session_post.
  unfold rfc7807_error_handle at 1. unfold bind at 1.
  fold (post_of self entity). rewrite session_request_run.
  apply Z.eqb_neq in Hne. rewrite Hne. reflexivity.
Qed.

(** [upsert] where the first POST is not answered 409: the outcome is that
    of [create], and the POST is the only request. *)
Lemma upsert_without_conflict (fuel : nat) (self : Entities) (entity : Entity)
    (w : World W) :
  status_code (answer_to (post_of self entity) w) <> 409 ->
  upsert W send (S fuel) self entity w
    = create W send (S fuel) self entity false false w /\
  snd (upsert W send (S fuel) self entity w) = after (post_of self entity) w.
Proof.
  intros Hne.
  pose proof (create_without_conflict fuel self entity false false w Hne) as Hc.
  destruct (create_accept_log self entity (answer_to (post_of self entity) w)
              (after (post_of self entity) w)) as [Hlog Hnot].
  specialize (Hnot Hne).
  pose proof (rfc7807_no_HTTPError
                (create_accept W self entity (answer_to (post_of self entity) w))
                (after (post_of self entity) w)) as Hhttp.
  assert (Hu : upsert W send (S fuel) self entity w
               = create W send (S fuel) self entity false false w).
  { unfold upsert, try_except. unfold rfc7807_error_handle at 1.
    rewrite Hc.
    destruct (rfc7807_error_handle W _ _) as [[a|e] w'] eqn:E; simpl in *.
    - reflexivity.
    - destruct e; simpl in *; try reflexivity.
      + contradiction.
      + exfalso. eapply Hhttp. reflexivity. }
  split; [exact Hu|]. rewrite Hu, Hc. exact Hlog.
Qed.

(** [create] on a conflict, branch by branch. *)
Lemma create_conflict_run (fuel : nat) (self : Entities) (entity : Entity)
    (skip overwrite : bool) (w : World W) :
  status_code (answer_to (post_of self entity) w) = 409 ->
  create W send (S fuel) self entity skip overwrite w
  = if skip then (Ok None, after (post_of self entity) w)
    else if overwrite || Client.overwrite (_client self)
    then (Ok None, after (post_of self entity) w)
    else (Raise NgsiAlreadyExistsError, after (post_of self entity) w).
Proof.
  intros H409. simpl. unfold create_body, rfc7807_error_handle, session_post.
  unfold bind at 1. fold (post_of self entity). rewrite session_request_run.
  rewrite H409. simpl.
  destruct skip; [reflexivity|].
  destruct (overwrite || Client.overwrite (_client self)); [reflexivity|].
  unfold create_accept, bind.
  rewrite raise_for_status_conflict by exact H409. reflexivity.
Qed.

(** The fuel does not matter once there is some: [create] never reaches
    the recursive call that [update] would make, so it never runs out. *)
Lemma create_fuel_irrelevant (n m : nat) (self : Entities) (entity : Entity)
    (skip overwrite : bool) (w : World W) :
  create W send (S n) self entity skip overwrite w
  = create W send (S m) self entity skip overwrite w.
Proof.
  destruct (Z.eq_dec (status_code (answer_to (post_of self entity) w)) 409)
    as [H409|Hne].
  - rewrite !create_conflict_run by exact H409. reflexivity.
  - rewrite !create_without_conflict by exact Hne. reflexivity.
Qed.

(** Every call of [create] sends exactly one request, its POST. *)
Lemma create_sends_one_post (fuel : nat) (self : Entities) (entity : Entity)
    (skip overwrite : bool) (w : World W) :
  snd (create W send (S fuel) self entity skip overwrite w)
  = after (post_of self entity) w.
Proof.
  destruct (Z.eq_dec (status_code (answer_to (post_of self entity) w)) 409)
    as [H409|Hne].
  - rewrite create_conflict_run by exact H409.
    destruct skip; [reflexivity|].
    destruct (overwrite || Client.overwrite (_client self)); reflexivity.
  - rewrite create_without_conflict by exact Hne. apply create_accept_log.
Qed.

Lemma create_no_HTTPError (fuel : nat) (self : Entities) (entity : Entity)
    (skip overwrite : bool) (w : World W) (status : Z) :
  fst (create W send (S fuel) self entity skip overwrite w)
  <> Raise (HTTPError status).
Proof. simpl. unfold create_body. apply rfc7807_no_HTTPError. Qed.

(** The DELETE that [delete] sends for an entity. *)
Definition delete_of (self : Entities) (entity : Entity) : Request :=
  {| method := DELETE; req_url := (url self ++ "/" ++ id entity)%string;
     req_headers := []; req_params := []; req_json := None |}.

Definition success (r : Response) : bool :=
  (200 <=? status_code r) && (status_code r <? 300).

Lemma delete_accepted (self : Entities) (entity : Entity) (w : World W) :
  success (answer_to (delete_of self entity) w) = true ->
  delete W send self (IsEntity entity) w
  = (Ok (ok (answer_to (delete_of self entity) w)), after (delete_of self entity) w).
Proof.
  intros Hok. unfold delete, rfc7807_error_handle, session_delete. simpl.
  unfold bind at 1. fold (delete_of self entity). rewrite session_request_run.
  unfold bind, raise_for_status. unfold success in Hok. rewrite Hok. reflexivity.
Qed.

(** [upsert] on a conflict, without the client's overwrite default: when
    the broker accepts the DELETE, the requests are the POST, the DELETE
    and a second POST, in that order, and the outcome is that of the
    second [create]. *)
Lemma upsert_on_conflict_replaces (fuel : nat) (self : Entities)
    (entity : Entity) (w : World W) :
  let w1 := after (post_of self entity) w in
  let w2 := after (delete_of self entity) w1 in
  status_code (answer_to (post_of self entity) w) = 409 ->
  Client.overwrite (_client self) = false ->
  success (answer_to (delete_of self entity) w1) = true ->
  upsert W send (S fuel) self entity w
    = create W send (S fuel) self entity false false w2 /\
  snd (upsert W send (S fuel) self entity w) = after (post_of self entity) w2.
Proof.
  intros w1 w2 H409 Hover Hdel.
  assert (Hu : upsert W send (S fuel) self entity w
               = create W send (S fuel) self entity false false w2).
  { unfold upsert, try_except. unfold rfc7807_error_handle at 1.
    rewrite (create_conflict_run fuel self entity false false w H409).
    rewrite Hover. simpl "||". cbv iota. simpl is_already_exists. cbv iota.
    unfold bind at 1. fold w1. rewrite (delete_accepted self entity w1 Hdel).
    fold w2.
    pose proof (create_no_HTTPError fuel self entity false false w2) as Hhttp.
    destruct (create W send (S fuel) self entity false false w2) as [[a|e] w3];
      [reflexivity|].
    destruct e; try reflexivity. exfalso. eapply Hhttp. reflexivity. }
  split; [exact Hu|]. rewrite Hu. apply create_sends_one_post.
Qed.

(** C9.  With neither [type] nor [q], [_query] and [count] raise
    [ValueError] and leave the world as it was: nothing is sent, the log
    of requests and the broker are unchanged. *)
Theorem query_and_count_need_a_filter (self : Entities) (gq ctx : option string)
    (limit offset : Z) (w : World W) :
  _query W send Entity_from_dict self None None gq ctx limit offset w
    = (Raise (ValueError "Must indicate at least a type or a query string"), w) /\
  count W send py_int self None None gq ctx w
    = (Raise (ValueError "Must indicate at least a type or a query string"), w).
Proof.
  split.
  - unfold _query, rfc7807_error_handle.
    destruct (negb (limit =? 0)), (negb (offset =? 0)); reflexivity.
  - reflexivity.
Qed.

End Endpoint.

(** *** Runs against the reference broker *)

Import RefBroker.

Definition no_from_dict (doc : pyval) : result Entity :=
  match doc with
  | VDict kvs =>
      match dict_get "id" kvs with
      | Some (VStr i) => Ok {| id := i; _payload := doc |}
      | _ => Raise NgsiMissingIdError
      end
  | _ => Raise TypeError
  end.

Definition run {A} (m : M (World state) A) (w : World state)
    : result A * list Method * state :=
  (fst (m w), methods (snd (m w)), broker (snd (m w))).

(** C1, witness and failing run: the broker holds an older [Room1];
    [create(room1, overwrite=True)] returns [None] after the POST alone and
    the broker still holds the older document. *)
Lemma create_on_conflict_witness :
  status_code (answer_to state send (post_of (endpoint false) room1) holding_world)
    = 409 /\
  run (create state send 3 (endpoint false) room1 false true) holding_world
    = (Ok None, [POST], [(room1_id, room1_doc 19)]).
Proof.
  split; [reflexivity|].
  unfold run.
  rewrite (create_on_conflict state send 2 (endpoint false) room1 false true
             holding_world eq_refl).
  reflexivity.
Defined.

(** The other two branches on the same conflict. *)
Example create_on_conflict_skip :
  run (create state send 3 (endpoint false) room1 true false) holding_world
  = (Ok None, [POST], [(room1_id, room1_doc 19)]).
Proof. reflexivity. Qed.

Example create_on_conflict_default_flags :
  run (create state send 3 (endpoint false) room1 false false) holding_world
  = (Raise NgsiAlreadyExistsError, [POST], [(room1_id, room1_doc 19)]).
Proof. reflexivity. Qed.

Example create_on_empty_broker :
  run (create state send 3 (endpoint false) room1 false false) empty_world
  = (Ok (Some room1), [POST], [(room1_id, room1_doc 23)]).
Proof. reflexivity. Qed.

(** C2, the two runs of [update] on a broker that holds [Room1]: with the
    existence check the entity is replaced, without it nothing happens. *)
Example update_checked_replaces :
  run (update state send 3 (endpoint false) room1 true) holding_world
  = (Ok (Some room1), [GET; DELETE; POST], [(room1_id, room1_doc 23)]).
Proof. reflexivity. Qed.

Example update_unchecked_on_holding_broker :
  run (update state send 3 (endpoint false) room1 false) holding_world
  = (Ok None, [], [(room1_id, room1_doc 19)]).
Proof. reflexivity. Qed.

Example update_checked_absent :
  run (update state send 3 (endpoint false) room1 true) empty_world
  = (Ok None, [GET], []).
Proof. reflexivity. Qed.

(** C3, witness and failing run: under the client's overwrite default,
    [upsert] of an existing id sends one POST and replaces nothing. *)
Lemma upsert_on_conflict_under_overwrite_witness :
  (status_code (answer_to state send (post_of (endpoint true) room1) holding_world)
     = 409 /\
   Client.overwrite (_client (endpoint true)) = true) /\
  run (upsert state send 3 (endpoint true) room1) holding_world
    = (Ok None, [POST], [(room1_id, room1_doc 19)]).
Proof.
  split; [split; reflexivity|].
  unfold run.
  rewrite (upsert_on_conflict_under_overwrite state send 2 (endpoint true) room1
             holding_world eq_refl eq_refl).
  reflexivity.
Defined.

(** Without the overwrite default, [upsert] does what the protocol says. *)
Example upsert_existing_id :
  run (upsert state send 3 (endpoint false) room1) holding_world
  = (Ok (Some room1), [POST; DELETE; POST], [(room1_id, room1_doc 23)]).
Proof. reflexivity. Qed.

Example upsert_new_id :
  run (upsert state send 3 (endpoint false) room1) empty_world
  = (Ok (Some room1), [POST], [(room1_id, room1_doc 23)]).
Proof. reflexivity. Qed.

(** With a [type], on the other hand, [_query] and [count] do send a GET. *)
Example query_with_type_sends_a_get :
  methods (snd (_query state send no_from_dict (endpoint false)
                  (Some "RoomObserved") None None None 0 0 holding_world)) = [GET] /\
  methods (snd (count state send (fun _ => None) (endpoint false)
                  (Some "RoomObserved") None None None holding_world)) = [GET].
Proof. split; reflexivity. Qed.

End ApiFacts.

(** * Further properties of the code *)

(** ** Dictionaries, continued *)

Section DictMore.
Context {V : Type}.
Implicit Types (d other : dict V) (k : string) (v : V).
Local Open Scope list_scope.

Lemma dict_mem_set k' k v d :
  dict_mem k' (dict_set k v d) = String.eqb k' k || dict_mem k' d.
Proof.
  unfold dict_mem. rewrite dict_get_set.
  destruct (String.eqb k' k); reflexivity.
Qed.

Lemma dict_set_fresh k v d :
  dict_get k d = None -> dict_set k v d = d ++ [(k, v)].
Proof.
  induction d as [|[k0 v0] d IH]; simpl; [reflexivity|].
  destruct (String.eqb k k0); [discriminate|].
  intros H. rewrite IH by exact H. reflexivity.
Qed.

Lemma dict_set_wf k v d : dict_wf d -> dict_wf (dict_set k v d).
Proof.
  unfold dict_wf. intros Hwf. rewrite dict_keys_set. unfold dict_mem.
  destruct (dict_get k d) eqn:E; [exact Hwf|].
  apply NoDup_app. split; [exact Hwf|]. split.
  - intros x Hx Hin. apply list_elem_of_singleton in Hin. subst x.
    apply dict_get_None in E. contradiction.
  - apply NoDup_singleton.
Qed.

Lemma dict_update_wf d other : dict_wf d -> dict_wf (dict_update d other).
Proof.
  unfold dict_update. revert d.
  induction other as [|[k v] other IH]; intros d Hwf; simpl; [exact Hwf|].
  apply IH. apply dict_set_wf. exact Hwf.
Qed.

(** Merging entries under new keys appends them, in their order. *)
Lemma dict_update_disjoint d other :
  dict_wf other ->
  (forall k, k ∈ dict_keys other -> dict_get k d = None) ->
  dict_update d other = d ++ other.
Proof.
  unfold dict_update, dict_wf, dict_keys. revert d.
  induction other as [|[k v] other IH]; intros d Hwf Hnew; simpl.
  - rewrite app_nil_r. reflexivity.
  - apply NoDup_cons in Hwf as [Hk Hwf].
    rewrite dict_set_fresh by (apply Hnew; simpl; apply elem_of_cons; now left).
    rewrite IH; [rewrite <- app_assoc; reflexivity | exact Hwf |].
    intros k' Hin.
    assert (Hne : k' <> k) by (intros ->; contradiction).
    assert (Hd : dict_get k' d = None)
      by (apply Hnew; simpl; apply elem_of_cons; now right).
    apply dict_get_None. unfold dict_keys. rewrite map_app. simpl.
    rewrite elem_of_app, list_elem_of_singleton.
    apply dict_get_None in Hd. unfold dict_keys in Hd. tauto.
Qed.

(** The keys after [d |= other]: those of [d], then the new ones of
    [other] in their order. *)
Lemma dict_keys_update d other :
  dict_wf other ->
  dict_keys (dict_update d other)
  = dict_keys d ++ List.filter (fun k => negb (dict_mem k d)) (dict_keys other).
Proof.
  unfold dict_update, dict_wf. revert d.
  induction other as [|[k v] other IH]; intros d Hwf; simpl.
  - rewrite app_nil_r. reflexivity.
  - unfold dict_keys in Hwf. simpl in Hwf. apply NoDup_cons in Hwf as [Hk Hwf].
    rewrite IH by exact Hwf. rewrite dict_keys_set.
    assert (Hext : List.filter (fun k0 => negb (dict_mem k0 (dict_set k v d)))
                     (dict_keys other)
                   = List.filter (fun k0 => negb (dict_mem k0 d)) (dict_keys other)).
    { apply filter_ext_in. intros k0 Hin. rewrite dict_mem_set.
      destruct (String.eqb_spec k0 k) as [->|_]; [|reflexivity].
      exfalso. apply Hk. apply list_elem_of_In. exact Hin. }
    rewrite Hext. destruct (dict_mem k d); simpl.
    + reflexivity.
    + rewrite <- app_assoc. reflexivity.
Qed.
End DictMore.

(** ** Attribute builders, continued *)

Module AttributeShape.
Import Attribute AttributeFacts.
Local Open Scope list_scope.

(** [x is not None] *)
Definition supplied (v : pyval) : bool :=
  match v with VNone => false | _ => true end.

Definition key_if (b : bool) (k : string) : list string :=
  if b then [k] else [].

(** The keys the two builders write themselves. *)
Definition builder_keys : list string :=
  ["type"; "value"; "object"; "unitCode"; "observedAt"; "datasetId"].

Section Builders.
Variable from_datetime : datetime -> string.

Lemma property_core_keys value unitcode observedat datasetid :
  is_property_value value = true ->
  dict_keys (property_core from_datetime value unitcode observedat datasetid)
  = ["type"; "value"] ++ key_if (supplied unitcode) "unitCode"
      ++ key_if (supplied observedat) "observedAt"
      ++ key_if (bool_decide (is_Some datasetid)) "datasetId".
Proof.
  intros Hv. unfold property_core, build_property. rewrite Hv.
  destruct unitcode, observedat, datasetid; reflexivity.
Qed.

Lemma relationship_core_keys value observedat :
  dict_keys (relationship_core from_datetime value observedat)
  = ["type"; "object"] ++ key_if (supplied observedat) "observedAt".
Proof. destruct observedat; reflexivity. Qed.

Lemma key_if_builder_key b k x :
  k ∈ builder_keys -> x ∈ key_if b k -> x ∈ builder_keys.
Proof.
  intros Hk Hx. destruct b; simpl in Hx.
  - apply list_elem_of_singleton in Hx. subst x. exact Hk.
  - apply elem_of_nil in Hx. contradiction.
Qed.

Lemma builder_keys_elem k :
  k ∈ builder_keys <->
  k = "type" \/ k = "value" \/ k = "object" \/ k = "unitCode"
  \/ k = "observedAt" \/ k = "datasetId".
Proof.
  unfold builder_keys. rewrite !elem_of_cons, elem_of_nil. tauto.
Qed.

Lemma property_core_fresh value unitcode observedat datasetid k :
  is_property_value value = true ->
  k ∉ builder_keys ->
  dict_get k (property_core from_datetime value unitcode observedat datasetid)
  = None.
Proof.
  intros Hv Hk. apply dict_get_None. rewrite property_core_keys by exact Hv.
  intros Hin. apply Hk. rewrite !elem_of_app in Hin.
  destruct Hin as [Hin|[Hin|[Hin|Hin]]].
  - apply builder_keys_elem. simpl in Hin.
    rewrite !elem_of_cons, elem_of_nil in Hin. tauto.
  - eapply key_if_builder_key; [|exact Hin]. apply builder_keys_elem. tauto.
  - eapply key_if_builder_key; [|exact Hin]. apply builder_keys_elem. tauto.
  - eapply key_if_builder_key; [|exact Hin]. apply builder_keys_elem. tauto.
Qed.

Lemma relationship_core_fresh value observedat k :
  k ∉ builder_keys ->
  dict_get k (relationship_core from_datetime value observedat) = None.
Proof.
  intros Hk. apply dict_get_None. rewrite relationship_core_keys.
  intros Hin. apply Hk. rewrite elem_of_app in Hin. destruct Hin as [Hin|Hin].
  - apply builder_keys_elem. simpl in Hin.
    rewrite !elem_of_cons, elem_of_nil in Hin. tauto.
  - eapply key_if_builder_key; [|exact Hin]. apply builder_keys_elem. tauto.
Qed.

Lemma merged_appends core userdata :
  dict_wf userdata ->
  (forall k, k ∈ dict_keys userdata -> dict_get k core = None) ->
  merged core userdata = core ++ userdata.
Proof.
  intros Hwf Hnew. unfold merged. destruct userdata as [|kv userdata].
  - simpl. rewrite app_nil_r. reflexivity.
  - simpl truthy. cbv iota. apply dict_update_disjoint; assumption.
Qed.

(** X1.  Called without userdata, the builders write a fixed sequence of
    keys: [type], [value] (resp. [object]), then [unitCode], [observedAt]
    and [datasetId], each present exactly when its argument is not
    [None]. *)
Theorem builders_write_metadata_only_when_supplied
    (value unitcode observedat : pyval) (datasetid : option string)
    (target : string) :
  match build_property from_datetime value unitcode observedat datasetid [] with
  | Ok doc =>
      dict_keys doc
      = ["type"; "value"] ++ key_if (supplied unitcode) "unitCode"
          ++ key_if (supplied observedat) "observedAt"
          ++ key_if (bool_decide (is_Some datasetid)) "datasetId"
  | Raise _ => is_property_value value = false
  end /\
  exists doc,
    build_relationship from_datetime target observedat [] = Ok doc /\
    dict_keys doc = ["type"; "object"] ++ key_if (supplied observedat) "observedAt".
Proof.
  split.
  - rewrite build_property_unfold.
    destruct (is_property_value value) eqn:Hv; [|reflexivity].
    unfold merged. simpl truthy. cbv iota. apply property_core_keys. exact Hv.
  - eexists. split; [apply build_relationship_unfold|].
    unfold merged. simpl truthy. cbv iota. apply relationship_core_keys.
Qed.

(** X2.  Userdata whose keys are none of the builders' own is appended to
    the document as it is: the result is the document built without
    userdata followed by the entries of userdata, in their order. *)
Theorem userdata_under_new_keys_is_appended
    (value unitcode observedat : pyval) (datasetid : option string)
    (target : string) (userdata : NgsiDict) :
  is_property_value value = true ->
  dict_wf userdata ->
  (forall k, k ∈ dict_keys userdata -> k ∉ builder_keys) ->
  (exists core,
     build_property from_datetime value unitcode observedat datasetid [] = Ok core /\
     build_property from_datetime value unitcode observedat datasetid userdata
     = Ok (core ++ userdata)) /\
  (exists core,
     build_relationship from_datetime target observedat [] = Ok core /\
     build_relationship from_datetime target observedat userdata
     = Ok (core ++ userdata)).
Proof.
  intros Hv Hwf Hnew. split.
  - exists (property_core from_datetime value unitcode observedat datasetid).
    rewrite !build_property_unfold, Hv. split; [reflexivity|].
    f_equal. apply merged_appends; [exact Hwf|].
    intros k Hk. apply property_core_fresh; [exact Hv | apply Hnew; exact Hk].
  - exists (relationship_core from_datetime target observedat).
    rewrite !build_relationship_unfold. split; [reflexivity|].
    f_equal. apply merged_appends; [exact Hwf|].
    intros k Hk. apply relationship_core_fresh. apply Hnew. exact Hk.
Qed.
End Builders.

Lemma sample_userdata_is_new :
  forall k, k ∈ dict_keys [("unit", VStr "celsius"); ("accuracy", VInt 2)] ->
            k ∉ builder_keys.
Proof.
  intros k Hin Hres. apply builder_keys_elem in Hres.
  simpl in Hin. rewrite !elem_of_cons, elem_of_nil in Hin.
  destruct Hin as [->|[->|[]]];
    destruct Hres as [H|[H|[H|[H|[H|H]]]]]; discriminate H.
Qed.

(** X2, witness: two fields of the caller's own follow the builder's. *)
Lemma userdata_under_new_keys_is_appended_witness :
  (is_property_value (VInt 23) = true /\
   dict_wf [("unit", VStr "celsius"); ("accuracy", VInt 2)]) /\
  build_property Iso8601.from_datetime (VInt 23) (VStr "CEL") VNone None
    [("unit", VStr "celsius"); ("accuracy", VInt 2)]
  = Ok [("type", VStr "Property"); ("value", VInt 23); ("unitCode", VStr "CEL");
        ("unit", VStr "celsius"); ("accuracy", VInt 2)].
Proof.
  assert (Hwf : dict_wf [("unit", VStr "celsius"); ("accuracy", VInt 2)]).
  { unfold dict_wf. refine (bool_decide_unpack _ _). vm_compute. exact I. }
  split; [split; [reflexivity | exact Hwf]|].
  destruct (userdata_under_new_keys_is_appended Iso8601.from_datetime
              (VInt 23) (VStr "CEL") VNone None "Room1"
              [("unit", VStr "celsius"); ("accuracy", VInt 2)]
              eq_refl Hwf sample_userdata_is_new) as [[core [Hcore Hrun]] _].
  rewrite Hrun. injection Hcore as <-. reflexivity.
Defined.

End AttributeShape.

(** ** ContextBuilder and Entity, continued *)

Module ModelLaws.
Import Attribute Model ModelFacts EntityMore.
Local Open Scope list_scope.

Lemma store_eta (s : store) : {| lists := lists s; dicts := dicts s |} = s.
Proof. destruct s; reflexivity. Qed.

(** *** ContextBuilder.add and ContextBuilder.remove *)

Lemma is_str_true uri x : is_str uri x = true <-> x = VStr uri.
Proof.
  destruct x; simpl; try (split; [discriminate | intros [=]]).
  rewrite String.eqb_eq. split; [intros ->; reflexivity | intros [= ->]; reflexivity].
Qed.

Lemma list_remove_None uri xs : list_remove uri xs = None <-> VStr uri ∉ xs.
Proof.
  induction xs as [|x xs IH]; simpl.
  - split; [intros _; apply not_elem_of_nil | reflexivity].
  - rewrite not_elem_of_cons. destruct (is_str uri x) eqn:E.
    + apply is_str_true in E. subst x.
      split; [discriminate | intros [H _]; contradiction].
    + assert (Hne : VStr uri <> x)
        by (intros <-; rewrite (proj2 (is_str_true uri _) eq_refl) in E; discriminate).
      destruct (list_remove uri xs) as [ys|].
      * split; [discriminate|]. intros [_ H]. apply IH in H. discriminate.
      * split; [|reflexivity]. intros _. split; [exact Hne | apply IH; reflexivity].
Qed.

(** [list.remove] drops the first occurrence and nothing else. *)
Lemma list_remove_Some uri xs ys :
  list_remove uri xs = Some ys <->
  exists pre post,
    xs = pre ++ VStr uri :: post /\ ys = pre ++ post /\ VStr uri ∉ pre.
Proof.
  revert ys. induction xs as [|x xs IH]; intros ys; simpl.
  - split; [discriminate|]. intros [pre [post [H _]]].
    destruct pre; discriminate H.
  - destruct (is_str uri x) eqn:E.
    + apply is_str_true in E. subst x. split.
      * intros [= <-]. exists [], xs. repeat split. apply not_elem_of_nil.
      * intros [pre [post [Hxs [Hys Hpre]]]]. destruct pre as [|p pre].
        -- simpl in *. injection Hxs as <-. subst ys. reflexivity.
        -- simpl in Hxs. injection Hxs as <- _. exfalso. apply Hpre.
           apply elem_of_cons. now left.
    + assert (Hne : x <> VStr uri)
        by (intros ->; rewrite (proj2 (is_str_true uri _) eq_refl) in E; discriminate).
      destruct (list_remove uri xs) as [zs|] eqn:Hrem.
      * split.
        -- intros [= <-]. destruct (proj1 (IH zs) eq_refl) as [pre [post [-> [-> Hpre]]]].
           exists (x :: pre), post. repeat split.
           apply not_elem_of_cons. split; [congruence | exact Hpre].
        -- intros [pre [post [Hxs [Hys Hpre]]]]. destruct pre as [|p pre].
           ++ simpl in Hxs. injection Hxs as -> _. contradiction.
           ++ simpl in Hxs. injection Hxs as <- ->. subst ys. simpl. f_equal. f_equal.
              apply not_elem_of_cons in Hpre as [_ Hpre].
              assert (H : Some zs = Some (pre ++ post))
                by (apply IH; exists pre, post; repeat split; exact Hpre).
              congruence.
      * split; [discriminate|]. intros [pre [post [Hxs [Hys Hpre]]]].
        destruct pre as [|p pre].
        -- simpl in Hxs. injection Hxs as -> _. contradiction.
        -- simpl in Hxs. injection Hxs as _ ->.
           apply not_elem_of_cons in Hpre as [_ Hpre].
           assert (H : None = Some (pre ++ post))
             by (apply IH; exists pre, post; repeat split; exact Hpre).
           discriminate H.
Qed.

Lemma list_remove_snoc_fresh uri xs :
  VStr uri ∉ xs -> list_remove uri (xs ++ [VStr uri]) = Some xs.
Proof.
  intros Hfresh. apply list_remove_Some. exists xs, [].
  rewrite app_nil_r. repeat split. exact Hfresh.
Qed.

Lemma add_run (self : ContextBuilder) (uri : string) (s : store) (xs : list pyval) :
  lists s !! _ctx self = Some xs ->
  add self uri s
  = (Ok self, {| lists := <[_ctx self := xs ++ [VStr uri]]> (lists s);
                 dicts := dicts s |}).
Proof.
  intros H. unfold add, bind. rewrite (read_list_run _ _ _ H). reflexivity.
Qed.

Lemma remove_run (self : ContextBuilder) (uri : string) (s : store) (xs : list pyval) :
  lists s !! _ctx self = Some xs ->
  remove self uri s
  = match list_remove uri xs with
    | Some ys => (Ok self, {| lists := <[_ctx self := ys]> (lists s);
                              dicts := dicts s |})
    | None => (Raise (ValueError "list.remove(x): x not in list"), s)
    end.
Proof.
  intros H. unfold remove, bind. rewrite (read_list_run _ _ _ H).
  destruct (list_remove uri xs); reflexivity.
Qed.

(** X3.  [add(uri)] appends to the list the builder holds and touches
    nothing else: every other list, every payload and the number of
    objects stay as they were.  It does not look for duplicates: adding
    the same URI twice leaves it twice at the end. *)
Theorem add_appends_in_place (self : ContextBuilder) (uri : string)
    (s : store) (xs : list pyval) :
  lists s !! _ctx self = Some xs ->
  exists s1 s2,
    add self uri s = (Ok self, s1) /\
    lists s1 !! _ctx self = Some (xs ++ [VStr uri]) /\
    (forall l, l <> _ctx self -> lists s1 !! l = lists s !! l) /\
    dicts s1 = dicts s /\
    length (lists s1) = length (lists s) /\
    add self uri s1 = (Ok self, s2) /\
    lists s2 !! _ctx self = Some (xs ++ [VStr uri; VStr uri]).
Proof.
  intros H.
  assert (Hlt : (_ctx self < length (lists s))%nat)
    by (apply lookup_lt_is_Some; eauto).
  assert (H1 : <[_ctx self := xs ++ [VStr uri]]> (lists s) !! _ctx self
               = Some (xs ++ [VStr uri]))
    by (apply list_lookup_insert_eq; exact Hlt).
  eexists. eexists. split; [apply add_run; exact H|]. simpl.
  split; [exact H1|]. split.
  { intros l Hl. apply list_lookup_insert_ne. congruence. }
  split; [reflexivity|]. split; [apply length_insert|]. split.
  - apply add_run. exact H1.
  - simpl. rewrite list_insert_insert_eq. rewrite <- app_assoc. simpl.
    apply list_lookup_insert_eq. exact Hlt.
Qed.

(** X3, witness: on the default list right after import. *)
Lemma add_appends_in_place_witness :
  lists module_store !! _ctx (ContextBuilder_init None) = Some DEFAULT_uris /\
  exists s1,
    add (ContextBuilder_init None) "https://example.org/ctx" module_store
      = (Ok (ContextBuilder_init None), s1) /\
    lists s1 !! EMPTY = lists module_store !! EMPTY.
Proof.
  split; [reflexivity|].
  destruct (add_appends_in_place (ContextBuilder_init None)
              "https://example.org/ctx" module_store DEFAULT_uris eq_refl)
    as [s1 [_ [Hadd [_ [Hframe _]]]]].
  exists s1. split; [exact Hadd|]. apply Hframe. discriminate.
Defined.

(** X4.  [remove(uri)] raises [ValueError] and changes nothing when the
    URI is not in the list; otherwise it drops the first occurrence of the
    URI and keeps every other element in place. *)
Theorem remove_drops_first_occurrence (self : ContextBuilder) (uri : string)
    (s : store) (xs : list pyval) :
  lists s !! _ctx self = Some xs ->
  ((VStr uri ∉ xs) /\
   remove self uri s = (Raise (ValueError "list.remove(x): x not in list"), s))
  \/
  (exists pre post,
     xs = pre ++ VStr uri :: post /\ (VStr uri ∉ pre) /\
     remove self uri s
     = (Ok self, {| lists := <[_ctx self := pre ++ post]> (lists s);
                    dicts := dicts s |})).
Proof.
  intros H. rewrite (remove_run self uri s xs H).
  destruct (list_remove uri xs) as [ys|] eqn:E.
  - right. apply list_remove_Some in E as [pre [post [Hxs [-> Hpre]]]].
    exists pre, post. repeat split; assumption.
  - left. split; [apply list_remove_None; exact E | reflexivity].
Qed.

(** X4, witness: removing the core context from the default list. *)
Lemma remove_drops_first_occurrence_witness :
  lists module_store !! _ctx (ContextBuilder_init None) = Some DEFAULT_uris /\
  exists pre post,
    DEFAULT_uris
    = pre ++ VStr "https://uri.etsi.org/ngsi-ld/v1/ngsi-ld-core-context.jsonld"
          :: post /\
    remove (ContextBuilder_init None)
      "https://uri.etsi.org/ngsi-ld/v1/ngsi-ld-core-context.jsonld" module_store
    = (Ok (ContextBuilder_init None),
       {| lists := <[DEFAULT := pre ++ post]> (lists module_store);
          dicts := dicts module_store |}).
Proof.
  split; [reflexivity|].
  destruct (remove_drops_first_occurrence (ContextBuilder_init None)
              "https://uri.etsi.org/ngsi-ld/v1/ngsi-ld-core-context.jsonld"
              module_store DEFAULT_uris eq_refl)
    as [[_ Hrun]|[pre [post [Hxs [_ Hrun]]]]].
  - discriminate Hrun.
  - exists pre, post. split; [exact Hxs | exact Hrun].
Defined.

(** X5.  [add(uri)] followed by [remove(uri)] gives the store back as it
    was, provided the URI was not in the list before. *)
Theorem add_then_remove_restores (self : ContextBuilder) (uri : string)
    (s : store) (xs : list pyval) :
  lists s !! _ctx self = Some xs ->
  VStr uri ∉ xs ->
  (let* b := add self uri in remove b uri) s = (Ok self, s).
Proof.
  intros H Hfresh.
  assert (Hlt : (_ctx self < length (lists s))%nat)
    by (apply lookup_lt_is_Some; eauto).
  unfold bind. rewrite (add_run self uri s xs H).
  rewrite (remove_run self uri _ (xs ++ [VStr uri]))
    by (simpl; apply list_lookup_insert_eq; exact Hlt).
  rewrite list_remove_snoc_fresh by exact Hfresh. simpl.
  rewrite list_insert_insert_eq, list_insert_id by exact H.
  rewrite store_eta. reflexivity.
Qed.

Lemma example_uri_is_new : VStr "https://example.org/ctx" ∉ DEFAULT_uris.
Proof.
  unfold DEFAULT_uris. rewrite !not_elem_of_cons.
  repeat split; try discriminate. apply not_elem_of_nil.
Qed.

(** X5, witness: on the default list. *)
Lemma add_then_remove_restores_witness :
  (lists module_store !! _ctx (ContextBuilder_init None) = Some DEFAULT_uris /\
   VStr "https://example.org/ctx" ∉ DEFAULT_uris) /\
  (let* b := add (ContextBuilder_init None) "https://example.org/ctx" in
   remove b "https://example.org/ctx") module_store
  = (Ok (ContextBuilder_init None), module_store).
Proof.
  split; [split; [reflexivity | exact example_uri_is_new]|].
  exact (add_then_remove_restores (ContextBuilder_init None)
           "https://example.org/ctx" module_store DEFAULT_uris eq_refl
           example_uri_is_new).
Defined.

(** When the URI was already in the list, the same two calls move it to
    the end instead. *)
Example add_then_remove_of_a_present_uri :
  exists s',
    (let* b := add (ContextBuilder_init None)
                 "https://schema.lab.fiware.org/ld/context" in
     remove b "https://schema.lab.fiware.org/ld/context") module_store
    = (Ok (ContextBuilder_init None), s') /\
    lists s' !! DEFAULT
    = Some [ VStr "https://uri.etsi.org/ngsi-ld/v1/ngsi-ld-core-context.jsonld";
             VStr "https://schema.lab.fiware.org/ld/context" ].
Proof. eexists. split; reflexivity. Qed.

(** *** The constructor, [setattr] and [getattr] *)

Lemma length_snoc {A} (l : list A) (x : A) : length (l ++ [x]) = S (length l).
Proof. rewrite length_app. simpl. lia. Qed.

Lemma lookup_snoc_old {A} (l : list A) (x : A) (i : nat) :
  (i < length l)%nat -> (l ++ [x]) !! i = l !! i.
Proof. apply lookup_app_l. Qed.

(** The payload the constructor builds. *)
Definition new_payload (id type : pyval) (c : loc) : dict slot :=
  [ (META_ATTR_CONTEXT, SRef c); ("id", SVal (Urn_prefix id));
    ("type", SVal type) ].

Lemma Entity_init_run (id type : pyval) (context : option loc) (cf : bool)
    (s : store) :
  Entity_init id type context cf s
  = (Ok {| _payload := length (dicts s); contextfirst := cf |},
     {| lists := lists s;
        dicts := dicts s
                 ++ [new_payload id type (default Entity_default_context context)] |}).
Proof. destruct context; reflexivity. Qed.





Lemma getattr_run (self : Entity) (k : string) (s : store) (d : dict slot) :
  dicts s !! _payload self = Some d ->
  getattr self k s = (Ok (dict_get k d), s).
Proof.
  intros H. unfold getattr, bind. rewrite (read_dict_run _ _ _ H). reflexivity.
Qed.

Lemma setattr_run (self : Entity) (k : string) (v : slot) (s : store) (d : dict slot) :
  dicts s !! _payload self = Some d ->
  setattr self k v s
  = (Ok tt, {| lists := lists s;
               dicts := <[_payload self := dict_set k v d]> (dicts s) |}).
Proof.
  intros H. unfold setattr, dict_setitem, bind.
  rewrite (read_dict_run _ _ _ H). reflexivity.
Qed.

(** X7.  [setattr] then [getattr] of the same name returns the value set;
    every other attribute reads as before, a missing one as [None];
    an attribute that existed keeps its position and a new one goes last;
    no other object changes. *)
Theorem setattr_then_getattr (self : Entity) (attr : string) (value : slot)
    (s : store) (d : dict slot) :
  dicts s !! _payload self = Some d ->
  exists s' d',
    setattr self attr value s = (Ok tt, s') /\
    getattr self attr s' = (Ok (Some value), s') /\
    (forall k, k <> attr -> getattr self k s' = (Ok (dict_get k d), s')) /\
    (forall k, getattr self k s = (Ok (dict_get k d), s)) /\
    dicts s' !! _payload self = Some d' /\
    dict_keys d' = (if dict_mem attr d then dict_keys d else dict_keys d ++ [attr]) /\
    (forall p, p <> _payload self -> dicts s' !! p = dicts s !! p) /\
    lists s' = lists s.
Proof.
  intros Hd.
  assert (Hlt : (_payload self < length (dicts s))%nat)
    by (apply lookup_lt_is_Some; eauto).
  eexists. exists (dict_set attr value d).
  split; [apply setattr_run; exact Hd|].
  assert (Hd' : <[_payload self := dict_set attr value d]> (dicts s) !! _payload self
                = Some (dict_set attr value d))
    by (apply list_lookup_insert_eq; exact Hlt).
  split.
  { erewrite getattr_run by (simpl; exact Hd'). rewrite dict_get_set_eq. reflexivity. }
  split.
  { intros k Hk. erewrite getattr_run by (simpl; exact Hd').
    rewrite dict_get_set_ne by exact Hk. reflexivity. }
  split; [intros k; apply getattr_run; exact Hd|].
  split; [exact Hd'|].
  split; [apply dict_keys_set|].
  split; [|reflexivity].
  intros p Hp. simpl. apply list_lookup_insert_ne. congruence.
Qed.

(** X7, witness: a temperature set on [Room1]. *)
Lemma setattr_then_getattr_witness :
  dicts room_store !! _payload room_entity = Some room_payload /\
  exists s',
    setattr room_entity "temperature" (SVal (VInt 23)) room_store = (Ok tt, s') /\
    getattr room_entity "temperature" s' = (Ok (Some (SVal (VInt 23))), s') /\
    getattr room_entity "pressure" s' = (Ok None, s').
Proof.
  split; [reflexivity|].
  destruct (setattr_then_getattr room_entity "temperature" (SVal (VInt 23))
              room_store room_payload eq_refl)
    as [s' [d' [Hset [Hget [Hother _]]]]].
  exists s'. split; [exact Hset|]. split; [exact Hget|].
  apply (Hother "pressure"). discriminate.
Defined.

(** *** The shape every payload keeps *)

(** The payload starts with [@context], [id], [type], in that order. *)
Definition reserved_first (d : dict slot) : Prop :=
  exists c i t rest,
    d = (META_ATTR_CONTEXT, c) :: ("id", i) :: ("type", t) :: rest.

Definition payload_ok (d : dict slot) : Prop := dict_wf d /\ reserved_first d.

Lemma dict_set_reserved_first k v d :
  reserved_first d -> reserved_first (dict_set k v d).
Proof.
  intros [c [i [t [rest ->]]]]. unfold reserved_first, META_ATTR_CONTEXT. simpl.
  destruct (String.eqb k "@context"); [eauto 10|].
  destruct (String.eqb k "id"); [eauto 10|].
  destruct (String.eqb k "type"); eauto 10.
Qed.

Lemma dict_update_reserved_first d other :
  reserved_first d -> reserved_first (dict_update d other).
Proof.
  unfold dict_update. revert d.
  induction other as [|[k v] other IH]; intros d H; simpl; [exact H|].
  apply IH. apply dict_set_reserved_first. exact H.
Qed.

Lemma new_payload_ok id type c : payload_ok (new_payload id type c).
Proof.
  split.
  - unfold dict_wf. refine (bool_decide_unpack _ _). vm_compute. exact I.
  - unfold reserved_first, new_payload. eauto 10.
Qed.

Lemma blank_payload_ok : payload_ok blank_payload.
Proof. apply (new_payload_ok VNone VNone Entity_default_context). Qed.

(** X8.  Both ways of making an entity give it a payload with unique keys
    that starts with [@context], [id], [type]: the constructor always, and
    [from_dict] whenever it succeeds, whatever the order of the keys in the
    document. *)
Theorem new_payloads_put_reserved_keys_first
    (id type : pyval) (context : option loc) (cf : bool)
    (entity : dict pyval) (s : store) :
  (exists e s1 d,
     Entity_init id type context cf s = (Ok e, s1) /\
     dicts s1 !! _payload e = Some d /\ payload_ok d) /\
  match Model.from_dict entity s with
  | (Ok e, s1) => exists d, dicts s1 !! _payload e = Some d /\ payload_ok d
  | (Raise x, s1) =>
      s1 = s /\ (x = NgsiMissingIdError \/ x = NgsiMissingTypeError
                 \/ x = NgsiMissingContextError)
  end.
Proof.
  split.
  - do 3 eexists. split; [apply Entity_init_run|]. simpl.
    split; [apply lookup_snoc | apply new_payload_ok].
  - rewrite from_dict_run.
    destruct (missing "id" entity); [split; [reflexivity | tauto]|].
    destruct (missing "type" entity); [split; [reflexivity | tauto]|].
    destruct (missing "@context" entity); [split; [reflexivity | tauto]|].
    eexists. simpl. split; [apply lookup_snoc|].
    destruct blank_payload_ok as [Hwf Hres]. split.
    + apply dict_update_wf. exact Hwf.
    + apply dict_update_reserved_first. exact Hres.
Qed.

(** X9.  [setattr] keeps that shape, whatever attribute is set, the three
    reserved ones included; hence the mapping that [to_dict(True)] returns
    always has [@context] as its first key. *)
Theorem setattr_keeps_reserved_keys_first (self : Entity) (attr : string)
    (value : slot) (s : store) (d : dict slot) :
  dicts s !! _payload self = Some d ->
  payload_ok d ->
  exists s' d' q rest,
    setattr self attr value s = (Ok tt, s') /\
    dicts s' !! _payload self = Some d' /\ payload_ok d' /\
    to_dict self true s' = (Ok q, s') /\
    dicts s' !! q = Some d' /\
    dict_keys d' = "@context" :: "id" :: "type" :: rest.
Proof.
  intros Hd [Hwf Hres].
  assert (Hlt : (_payload self < length (dicts s))%nat)
    by (apply lookup_lt_is_Some; eauto).
  assert (Hres' : reserved_first (dict_set attr value d))
    by (apply dict_set_reserved_first; exact Hres).
  destruct Hres' as [c [i [t [rest Heq]]]].
  eexists. exists (dict_set attr value d), (_payload self), (dict_keys rest).
  split; [apply setattr_run; exact Hd|]. simpl.
  assert (Hd' : <[_payload self := dict_set attr value d]> (dicts s) !! _payload self
                = Some (dict_set attr value d))
    by (apply list_lookup_insert_eq; exact Hlt).
  split; [exact Hd'|]. split.
  { split; [apply dict_set_wf; exact Hwf|]. rewrite Heq. unfold reserved_first. eauto 10. }
  split; [reflexivity|]. split; [exact Hd'|].
  rewrite Heq. reflexivity.
Qed.

(** X9, witness: overwriting the [id] of [Room1] is allowed and keeps the
    shape. *)
Lemma setattr_keeps_reserved_keys_first_witness :
  (dicts room_store !! _payload room_entity = Some room_payload /\
   payload_ok room_payload) /\
  exists s' d',
    setattr room_entity "id" (SVal (VStr "urn:ngsi-ld:RoomObserved:Room2")) room_store
      = (Ok tt, s') /\
    dicts s' !! _payload room_entity = Some d' /\
    dict_keys d' = ["@context"; "id"; "type"].
Proof.
  assert (Hok : payload_ok room_payload)
    by apply (new_payload_ok (VStr "RoomObserved:Room1") (VStr "RoomObserved") DEFAULT).
  split; [split; [reflexivity | exact Hok]|].
  destruct (setattr_keeps_reserved_keys_first room_entity "id"
              (SVal (VStr "urn:ngsi-ld:RoomObserved:Room2")) room_store
              room_payload eq_refl Hok)
    as [s' [d' [q [rest [Hset [Hd' [_ [_ [_ Hkeys]]]]]]]]].
  exists s', d'. split; [exact Hset|]. split; [exact Hd'|].
  injection Hset as <-. simpl in Hd'. injection Hd' as <-. reflexivity.
Defined.

(** *** from_dict and to_dict together *)

Definition other_key (k : string) : bool :=
  negb (String.eqb k "@context" || String.eqb k "id" || String.eqb k "type").

Lemma other_key_blank k : negb (dict_mem k blank_payload) = other_key k.
Proof.
  unfold other_key, dict_mem, blank_payload, META_ATTR_CONTEXT. simpl.
  destruct (String.eqb k "@context"); [reflexivity|].
  destruct (String.eqb k "id"); [reflexivity|].
  destruct (String.eqb k "type"); reflexivity.
Qed.

(** X10.  [from_dict] normalises the key order: in the payload of the new
    entity [@context], [id] and [type] come first, in that order, wherever
    they stood in the document; the other keys follow in the document's
    order. *)
Theorem from_dict_moves_reserved_keys_first (entity : dict pyval) (s : store) :
  dict_wf entity ->
  missing "id" entity = false ->
  missing "type" entity = false ->
  missing "@context" entity = false ->
  exists payload,
    Model.from_dict entity s
    = (Ok {| _payload := length (dicts s); contextfirst := false |},
       {| lists := lists s; dicts := dicts s ++ [payload] |}) /\
    dict_keys payload
    = ["@context"; "id"; "type"] ++ List.filter other_key (dict_keys entity).
Proof.
  intros Hwf Hid Hty Hctx.
  exists (dict_update blank_payload (as_slots entity)).
  split; [rewrite from_dict_run, Hid, Hty, Hctx; reflexivity|].
  rewrite dict_keys_update
    by (unfold dict_wf; rewrite dict_keys_as_slots; exact Hwf).
  rewrite dict_keys_as_slots. f_equal.
  apply filter_ext. intros k. apply other_key_blank.
Qed.

(** X10, witness: a document with [@context] last and an attribute before
    it. *)
Lemma from_dict_moves_reserved_keys_first_witness :
  (dict_wf room_doc /\ missing "id" room_doc = false /\
   missing "type" room_doc = false /\ missing "@context" room_doc = false) /\
  dict_keys room_doc = ["id"; "type"; "temperature"; "@context"] /\
  exists payload,
    Model.from_dict room_doc module_store
    = (Ok {| _payload := 0%nat; contextfirst := false |},
       {| lists := lists module_store; dicts := [payload] |}) /\
    dict_keys payload = ["@context"; "id"; "type"; "temperature"].
Proof.
  assert (Hwf : dict_wf room_doc).
  { unfold dict_wf. refine (bool_decide_unpack _ _). vm_compute. exact I. }
  split; [repeat split; exact Hwf|]. split; [reflexivity|].
  destruct (from_dict_moves_reserved_keys_first room_doc module_store Hwf
              eq_refl eq_refl eq_refl) as [payload [Hrun Hkeys]].
  exists payload. split; [exact Hrun | exact Hkeys].
Defined.

Lemma obj_get_run (p : loc) (k : string) (s : store) (d : dict slot) :
  dicts s !! p = Some d -> obj_get p k s = (Ok (dict_get k d), s).
Proof.
  intros H. unfold obj_get, bind. rewrite (read_dict_run _ _ _ H). reflexivity.
Qed.

(** Merging a payload into the blank one gives that payload back. *)
Lemma dict_update_blank_payload (d : dict slot) :
  payload_ok d -> dict_update blank_payload d = d.
Proof.
  intros [Hwf [c [i [t [rest ->]]]]].
  unfold dict_wf, dict_keys, META_ATTR_CONTEXT in Hwf. simpl in Hwf.
  apply NoDup_cons in Hwf as [H1 Hwf].
  apply NoDup_cons in Hwf as [H2 Hwf].
  apply NoDup_cons in Hwf as [H3 Hwf].
  change (dict_update blank_payload
            ((META_ATTR_CONTEXT, c) :: ("id", i) :: ("type", t) :: rest))
    with (dict_update [(META_ATTR_CONTEXT, c); ("id", i); ("type", t)] rest).
  rewrite dict_update_disjoint; [reflexivity | exact Hwf |].
  intros k Hk. apply dict_get_None. unfold dict_keys, META_ATTR_CONTEXT. simpl.
  rewrite !not_elem_of_cons. fold (dict_keys rest) in *.
  repeat split.
  - intros ->. apply H1. rewrite !elem_of_cons. tauto.
  - intros ->. apply H2. rewrite !elem_of_cons. tauto.
  - intros ->. contradiction.
  - apply not_elem_of_nil.
Qed.

(** X11.  Feeding [from_dict] the mapping that [to_dict(True)] returned
    gives a second entity with a payload object of its own that is equal
    to the first one entry for entry, in the same order; its [@context]
    entry is the very entry of the first entity, so that the two entities
    share one context list.  The first entity and the lists are left as
    they were. *)
Theorem rehydrating_to_dict_gives_an_equal_payload
    (self : Entity) (s : store) (d : dict slot) :
  dicts s !! _payload self = Some d ->
  payload_ok d ->
  slot_falsy (dict_get "id" d) s = (Ok false, s) ->
  slot_falsy (dict_get "type" d) s = (Ok false, s) ->
  slot_falsy (dict_get "@context" d) s = (Ok false, s) ->
  exists q e' s',
    to_dict self true s = (Ok q, s) /\
    EntityMore.from_dict q s = (Ok e', s') /\
    _payload e' <> _payload self /\
    dicts s' !! _payload e' = Some d /\
    dicts s' !! _payload self = Some d /\
    Entity_context e' s' = Entity_context self s' /\
    lists s' = lists s.
Proof.
  intros Hd Hok Hid Hty Hctx.
  assert (Hlt : (_payload self < length (dicts s))%nat)
    by (apply lookup_lt_is_Some; eauto).
  exists (_payload self), {| _payload := length (dicts s); contextfirst := false |},
         {| lists := lists s; dicts := dicts s ++ [d] |}.
  assert (Hold : (dicts s ++ [d]) !! _payload self = Some d)
    by (rewrite lookup_snoc_old by exact Hlt; exact Hd).
  split; [reflexivity|]. split.
  - unfold EntityMore.from_dict.
    unfold bind at 1. rewrite (obj_get_run _ _ _ _ Hd).
    unfold bind at 1. rewrite Hid. cbv iota.
    unfold bind at 1. rewrite (obj_get_run _ _ _ _ Hd).
    unfold bind at 1. rewrite Hty. cbv iota.
    unfold bind at 1. rewrite (obj_get_run _ _ _ _ Hd).
    unfold bind at 1. rewrite Hctx. cbv iota.
    unfold bind at 1. rewrite Entity_init_run.
    unfold bind at 1. erewrite read_dict_run by (simpl; apply lookup_snoc).
    unfold bind at 1. erewrite read_dict_run
      by (simpl; rewrite lookup_snoc_old by exact Hlt; exact Hd).
    unfold bind, write_dict, ret. simpl. rewrite insert_snoc.
    change (new_payload VNone VNone Entity_default_context) with blank_payload.
    rewrite dict_update_blank_payload by exact Hok. reflexivity.
  - simpl. split; [lia|]. split; [apply lookup_snoc|]. split; [exact Hold|].
    split; [|reflexivity].
    unfold Entity_context, dict_getitem, bind.
    erewrite !read_dict_run by (simpl; first [apply lookup_snoc | exact Hold]).
    reflexivity.
Qed.

(** X11, witness: [Room1] rehydrated from its own [to_dict(True)]; both
    entities then read the same list object as their context. *)
Lemma rehydrating_to_dict_gives_an_equal_payload_witness :
  (dicts room_store !! _payload room_entity = Some room_payload /\
   payload_ok room_payload /\
   slot_falsy (dict_get "id" room_payload) room_store = (Ok false, room_store) /\
   slot_falsy (dict_get "type" room_payload) room_store = (Ok false, room_store) /\
   slot_falsy (dict_get "@context" room_payload) room_store = (Ok false, room_store)) /\
  exists q e' s',
    to_dict room_entity true room_store = (Ok q, room_store) /\
    EntityMore.from_dict q room_store = (Ok e', s') /\
    _payload e' <> _payload room_entity /\
    Entity_context e' s' = (Ok (SRef DEFAULT), s') /\
    Entity_context room_entity s' = (Ok (SRef DEFAULT), s').
Proof.
  assert (Hok : payload_ok room_payload)
    by apply (new_payload_ok (VStr "RoomObserved:Room1") (VStr "RoomObserved") DEFAULT).
  split; [repeat split; apply Hok|].
  destruct (rehydrating_to_dict_gives_an_equal_payload room_entity room_store
              room_payload eq_refl Hok eq_refl eq_refl eq_refl)
    as [q [e' [s' [Hto [Hfrom [Hne [_ [Hself [Hsame _]]]]]]]]].
  exists q, e', s'. split; [exact Hto|]. split; [exact Hfrom|]. split; [exact Hne|].
  assert (Hc : Entity_context room_entity s' = (Ok (SRef DEFAULT), s')).
  { unfold Entity_context, dict_getitem, bind.
    rewrite (read_dict_run _ _ _ Hself). reflexivity. }
  split; [rewrite Hsame; exact Hc | exact Hc].
Defined.

(** The two embeddings of [from_dict] agree: on a decoded document put in
    the store as a dictionary object, [EntityMore.from_dict] does what
    [Model.from_dict] does on the document. *)
Lemma slot_falsy_as_slots (k : string) (entity : dict pyval) (s : store) :
  slot_falsy (dict_get k (as_slots entity)) s = (Ok (missing k entity), s).
Proof.
  rewrite dict_get_as_slots. unfold missing, get_or_None.
  destruct (dict_get k entity); reflexivity.
Qed.

Lemma from_dict_embeddings_agree (entity : dict pyval) (s : store) :
  let s0 := {| lists := lists s; dicts := dicts s ++ [as_slots entity] |} in
  EntityMore.from_dict (length (dicts s)) s0
  = match Model.from_dict entity s with
    | (Ok _, _) =>
        (Ok {| _payload := S (length (dicts s)); contextfirst := false |},
         {| lists := lists s;
            dicts := (dicts s ++ [as_slots entity])
                     ++ [dict_update blank_payload (as_slots entity)] |})
    | (Raise x, _) => (Raise x, s0)
    end.
Proof.
  intros s0.
  assert (H0 : dicts s0 !! length (dicts s) = Some (as_slots entity))
    by apply lookup_snoc.
  rewrite from_dict_run. unfold EntityMore.from_dict.
  unfold bind at 1. rewrite (obj_get_run _ _ _ _ H0).
  unfold bind at 1. rewrite slot_falsy_as_slots.
  destruct (missing "id" entity); [reflexivity|].
  unfold bind at 1. rewrite (obj_get_run _ _ _ _ H0).
  unfold bind at 1. rewrite slot_falsy_as_slots.
  destruct (missing "type" entity); [reflexivity|].
  unfold bind at 1. rewrite (obj_get_run _ _ _ _ H0).
  unfold bind at 1. rewrite slot_falsy_as_slots.
  destruct (missing "@context" entity); [reflexivity|].
  unfold bind at 1. rewrite Entity_init_run.
  unfold bind at 1. erewrite read_dict_run by (simpl; apply lookup_snoc).
  unfold bind at 1. erewrite read_dict_run
    by (simpl; rewrite lookup_snoc_old by (rewrite length_snoc; lia);
        apply lookup_snoc).
  unfold bind, write_dict, ret. simpl. rewrite insert_snoc, length_snoc.
  reflexivity.
Qed.

End ModelLaws.

(** ** The entities endpoint, continued *)

Module ApiLaws.
Import Attribute Api ApiFacts EndpointMore.
Local Open Scope list_scope.

(** *** The last segment of a location *)

Fixpoint has_slash (s : string) : bool :=
  match s with
  | EmptyString => false
  | String c s' => Ascii.eqb c "/"%char || has_slash s'
  end.

Lemma append_cons (x : ascii) (a b : string) :
  (String x a ++ b)%string = String x (a ++ b)%string.
Proof. reflexivity. Qed.

Lemma append_nil (b : string) : (EmptyString ++ b)%string = b.
Proof. reflexivity. Qed.

Lemma string_app_assoc (a b c : string) :
  ((a ++ b) ++ c = a ++ (b ++ c))%string.
Proof.
  induction a as [|x a IH]; [reflexivity|].
  rewrite !append_cons, IH. reflexivity.
Qed.

Lemma string_app_empty (a : string) : (a ++ EmptyString)%string = a.
Proof.
  induction a as [|x a IH]; [reflexivity|]. rewrite append_cons, IH. reflexivity.
Qed.

Lemma has_slash_app (a b : string) :
  has_slash (a ++ b)%string = has_slash a || has_slash b.
Proof.
  induction a as [|x a IH]; [reflexivity|].
  rewrite append_cons. simpl. rewrite IH. apply orb_assoc.
Qed.

Lemma last_segment_app (a b acc : string) :
  last_segment (a ++ b)%string acc = last_segment b (last_segment a acc).
Proof.
  revert acc. induction a as [|x a IH]; intros acc; [reflexivity|].
  rewrite append_cons. simpl.
  destruct (Ascii.eqb x "/"%char); apply IH.
Qed.

Lemma last_segment_no_slash (s acc : string) :
  has_slash s = false -> last_segment s acc = (acc ++ s)%string.
Proof.
  revert acc. induction s as [|x s IH]; intros acc; simpl.
  - intros _. rewrite string_app_empty. reflexivity.
  - destruct (Ascii.eqb x "/"%char); simpl; [discriminate|].
    intros H. rewrite IH by exact H. rewrite string_app_assoc.
    rewrite append_cons, append_nil. reflexivity.
Qed.

Lemma last_segment_has_no_slash (s acc : string) :
  has_slash acc = false -> has_slash (last_segment s acc) = false.
Proof.
  revert acc. induction s as [|x s IH]; intros acc Hacc; simpl; [exact Hacc|].
  destruct (Ascii.eqb x "/"%char) eqn:E.
  - apply IH. reflexivity.
  - apply IH. rewrite has_slash_app, Hacc. simpl. rewrite E. reflexivity.
Qed.

(** What follows the last slash has no slash, and a slash-free id is read
    back from any location that ends in a slash and that id. *)
Lemma rsplit_last_has_no_slash (location : string) :
  has_slash (rsplit_last location) = false.
Proof. apply last_segment_has_no_slash. reflexivity. Qed.

Lemma rsplit_last_after_slash (base s : string) :
  has_slash s = false -> rsplit_last (base ++ "/" ++ s)%string = s.
Proof.
  intros H. unfold rsplit_last. rewrite last_segment_app.
  rewrite append_cons, append_nil. simpl.
  rewrite last_segment_no_slash by exact H. reflexivity.
Qed.

(** X12.  The URL that [to_broker_url] builds for an entity ends in the
    entity's id: for an id without a slash, the last segment of that URL,
    which is what [create] compares a [Location] with, is the id. *)
Theorem to_broker_url_ends_in_the_id (self : Entities) (entity : Entity) :
  has_slash (id entity) = false ->
  rsplit_last (to_broker_url self (IsEntity entity)) = id entity.
Proof.
  intros H. unfold to_broker_url. simpl eid_of.
  repeat rewrite <- string_app_assoc.
  rewrite string_app_assoc. apply rsplit_last_after_slash. exact H.
Qed.

(** X12, witness: the URL of [Room1] on the local broker. *)
Lemma to_broker_url_ends_in_the_id_witness :
  has_slash (id RefBroker.room1) = false /\
  to_broker_url (RefBroker.endpoint false) (IsEntity RefBroker.room1)
  = "http://localhost:1026/ngsi-ld/v1/entities/urn:ngsi-ld:RoomObserved:Room1"
  /\
  rsplit_last (to_broker_url (RefBroker.endpoint false) (IsEntity RefBroker.room1))
  = "urn:ngsi-ld:RoomObserved:Room1".
Proof.
  split; [reflexivity|]. split; [reflexivity|].
  exact (to_broker_url_ends_in_the_id (RefBroker.endpoint false) RefBroker.room1
           eq_refl).
Defined.

Section Endpoint.
Variable W : Type.
Variable send : Request -> W -> Response * W.
Variable Entity_from_dict : pyval -> result Entity.
Variable py_int : string -> option Z.

Lemma success_not_conflict (r : Response) :
  success r = true -> status_code r <> 409.
Proof. unfold success. intros H. apply andb_true_iff in H as [_ H]. lia. Qed.

Lemma success_ok (r : Response) : success r = true -> ok r = true.
Proof.
  unfold success, ok. intros H. apply andb_true_iff in H as [_ H].
  destruct (400 <=? status_code r) eqn:E; [|reflexivity]. lia.
Qed.

Lemma create_accept_never_out_of_fuel self entity r (w : World W) :
  fst (rfc7807_error_handle W (create_accept W self entity r) w)
  <> Raise RecursionError.
Proof.
  unfold create_accept, bind, raise_for_status, rfc7807_error_handle.
  destruct ((200 <=? status_code r) && (status_code r <? 300)); simpl.
  - destruct (dict_get "Location" (headers r)) as [location|].
    + destruct (negb (String.eqb (id entity) (rsplit_last location)));
        simpl; discriminate.
    + destruct (Client.ignore_errors (_client self)); simpl; discriminate.
  - unfold classify. destruct (status_code r =? 409); discriminate.
Qed.

(** X13.  Whatever the flags and whatever the broker answers, one call of
    [create] sends exactly one request, the POST of the entity's payload
    to [url/]; it sends no DELETE and no second POST, it never runs out of
    recursion depth, and no raw HTTP error leaves it. *)
Theorem create_sends_exactly_one_post (fuel : nat) (self : Entities)
    (entity : Entity) (skip overwrite : bool) (w : World W) :
  let req := {| method := POST; req_url := (url self ++ "/")%string;
                req_headers := []; req_params := [];
                req_json := Some (_payload entity) |} in
  log (snd (create W send (S fuel) self entity skip overwrite w)) = log w ++ [req] /\
  broker (snd (create W send (S fuel) self entity skip overwrite w))
    = snd (send req (broker w)) /\
  fst (create W send (S fuel) self entity skip overwrite w) <> Raise RecursionError /\
  forall status,
    fst (create W send (S fuel) self entity skip overwrite w)
    <> Raise (HTTPError status).
Proof.
  intros req. rewrite create_sends_one_post.
  split; [reflexivity|]. split; [reflexivity|]. split.
  - destruct (Z.eq_dec (status_code (answer_to W send (post_of self entity) w)) 409)
      as [H409|Hne].
    + rewrite create_conflict_run by exact H409.
      destruct skip; [discriminate|].
      destruct (overwrite || Client.overwrite (_client self)); discriminate.
    + rewrite create_without_conflict by exact Hne.
      apply create_accept_never_out_of_fuel.
  - intros status. apply create_no_HTTPError.
Qed.

(** [create] on a 2xx answer that carries a [Location]. *)
Lemma create_located (fuel : nat) (self : Entities) (entity : Entity)
    (skip overwrite : bool) (w : World W) (location : string) :
  success (answer_to W send (post_of self entity) w) = true ->
  dict_get "Location" (headers (answer_to W send (post_of self entity) w))
    = Some location ->
  create W send (S fuel) self entity skip overwrite w
  = (if String.eqb (id entity) (rsplit_last location) then Ok (Some entity)
     else Raise (NgsiApiError ("Broker returned wrong id. Expected=" ++ id entity
                               ++ " Returned=" ++ rsplit_last location)%string),
     after W send (post_of self entity) w).
Proof.
  intros Hok Hloc.
  rewrite create_without_conflict by (apply success_not_conflict; exact Hok).
  unfold rfc7807_error_handle, create_accept, bind, raise_for_status.
  unfold success in Hok. rewrite Hok. simpl. rewrite Hloc.
  destruct (String.eqb (id entity) (rsplit_last location)); reflexivity.
Qed.

(** X14.  When the broker answers 2xx with a [Location] that ends in a
    slash followed by the entity's id, and the id has no slash, [create]
    returns the entity it was given, whatever precedes the id in the
    location and whatever the flags. *)
Theorem create_accepts_a_location_ending_in_the_id (fuel : nat)
    (self : Entities) (entity : Entity) (skip overwrite : bool) (w : World W)
    (base : string) :
  success (answer_to W send (post_of self entity) w) = true ->
  dict_get "Location" (headers (answer_to W send (post_of self entity) w))
    = Some (base ++ "/" ++ id entity)%string ->
  has_slash (id entity) = false ->
  create W send (S fuel) self entity skip overwrite w
  = (Ok (Some entity), after W send (post_of self entity) w).
Proof.
  intros Hok Hloc Hid.
  rewrite (create_located fuel self entity skip overwrite w _ Hok Hloc).
  rewrite rsplit_last_after_slash by exact Hid.
  rewrite String.eqb_refl. reflexivity.
Qed.

(** X15.  An entity whose id contains a slash is never returned by
    [create]: the id is compared with what follows the last slash of the
    [Location], which cannot contain a slash, so even a broker that echoes
    the id exactly gets an error. *)
Theorem create_never_returns_an_id_with_a_slash (fuel : nat)
    (self : Entities) (entity : Entity) (skip overwrite : bool) (w : World W) :
  has_slash (id entity) = true ->
  forall e, fst (create W send (S fuel) self entity skip overwrite w) <> Ok (Some e).
Proof.
  intros Hid e.
  destruct (Z.eq_dec (status_code (answer_to W send (post_of self entity) w)) 409)
    as [H409|Hne].
  - rewrite create_conflict_run by exact H409.
    destruct skip; [discriminate|].
    destruct (overwrite || Client.overwrite (_client self)); discriminate.
  - rewrite create_without_conflict by exact Hne.
    unfold rfc7807_error_handle, create_accept, bind, raise_for_status.
    destruct ((200 <=? _) && (_ <? 300)); simpl.
    + destruct (dict_get "Location" _) as [location|].
      * destruct (String.eqb_spec (id entity) (rsplit_last location)) as [Heq|_];
          simpl; [|discriminate].
        exfalso. rewrite Heq, rsplit_last_has_no_slash in Hid. discriminate.
      * destruct (Client.ignore_errors (_client self)); simpl; discriminate.
    + unfold classify. destruct (_ =? 409); discriminate.
Qed.
(** *** delete and exists *)

(** The request [delete] sends, and the one [exists] sends. *)
Definition req_delete (self : Entities) (entity : EntityOrId) : Request :=
  {| method := DELETE; req_url := (url self ++ "/" ++ eid_of entity)%string;
     req_headers := []; req_params := []; req_json := None |}.

Definition req_exists (self : Entities) (entity : EntityOrId) : Request :=
  {| method := GET; req_url := (url self ++ "/" ++ eid_of entity)%string;
     req_headers := []; req_params := []; req_json := None |}.

(** [delete], step by step. *)
Lemma delete_run (self : Entities) (entity : EntityOrId) (w : World W) :
  delete W send self entity w
  = (if success (answer_to W send (req_delete self entity) w) then Ok true
     else Raise (classify (status_code (answer_to W send (req_delete self entity) w))),
     after W send (req_delete self entity) w).
Proof.
  unfold delete, rfc7807_error_handle, session_delete.
  unfold bind at 1. fold (req_delete self entity). rewrite session_request_run.
  unfold bind, raise_for_status.
  destruct (success (answer_to W send (req_delete self entity) w)) eqn:E.
  - unfold success in E. rewrite E. simpl.
    rewrite (success_ok _ E). reflexivity.
  - unfold success in E. rewrite E. reflexivity.
Qed.


(** [exists], step by step. *)
Lemma exists_run (self : Entities) (entity : EntityOrId) (w : World W) :
  exists_ W send self entity w
  = (let r := answer_to W send (req_exists self entity) w in
     if ok r then
       match body r with
       | Some payload => py_in "@context" payload
       | None => Raise JSONDecodeError
       end
     else Ok false,
     after W send (req_exists self entity) w).
Proof.
  unfold exists_, rfc7807_error_handle, session_get.
  unfold bind at 1. fold (req_exists self entity). rewrite session_request_run.
  cbv zeta.
  destruct (ok (answer_to W send (req_exists self entity) w)); [|reflexivity].
  unfold bind, response_json, lift.
  destruct (body (answer_to W send (req_exists self entity) w)) as [payload|];
    [|reflexivity].
  destruct payload; reflexivity.
Qed.

(** X17.  [exists] sends exactly one GET and never raises on an error
    status: a 4xx or 5xx answer reads as [False].  On any other answer the
    result is whether the decoded body has the key [@context], so a
    successful answer without that key reads as [False] too. *)
Theorem exists_is_a_probe_for_the_context_key (self : Entities)
    (entity : EntityOrId) (w : World W) :
  let r := answer_to W send (req_exists self entity) w in
  snd (exists_ W send self entity w) = after W send (req_exists self entity) w /\
  (ok r = false -> fst (exists_ W send self entity w) = Ok false) /\
  (forall kvs, ok r = true -> body r = Some (VDict kvs) ->
     fst (exists_ W send self entity w) = Ok (dict_mem "@context" kvs)).
Proof.
  intros r. rewrite exists_run. cbv zeta. fold r. simpl.
  split; [reflexivity|]. split.
  - intros ->. reflexivity.
  - intros kvs -> ->. reflexivity.
Qed.

(** *** update with the existence check *)

(** X18.  [update(entity, check_exists=True)] on an entity that [exists]
    reports absent sends the probing GET only and returns [None]. *)
Theorem update_checked_on_absent_is_a_noop (fuel : nat) (self : Entities)
    (entity : Entity) (w : World W) :
  fst (exists_ W send self (IsEntity entity) w) = Ok false ->
  update W send fuel self entity true w
  = (Ok None, after W send (req_exists self (IsEntity entity)) w).
Proof.
  intros Hex. unfold update, update_body, rfc7807_error_handle.
  unfold bind at 1. rewrite exists_run in *. simpl in Hex. cbv zeta.
  rewrite Hex. reflexivity.
Qed.

(** X19.  [update(entity, check_exists=True)] on an entity that [exists]
    reports present, when the broker accepts the DELETE: the requests are
    the probing GET, the DELETE and the POST, in that order, and the
    outcome is that of [create]. *)
Theorem update_checked_on_present_replaces (fuel : nat) (self : Entities)
    (entity : Entity) (w : World W) :
  let w1 := after W send (req_exists self (IsEntity entity)) w in
  let w2 := after W send (req_delete self (IsEntity entity)) w1 in
  fst (exists_ W send self (IsEntity entity) w) = Ok true ->
  success (answer_to W send (req_delete self (IsEntity entity)) w1) = true ->
  update W send (S fuel) self entity true w
    = create W send (S fuel) self entity false false w2 /\
  log (snd (update W send (S fuel) self entity true w))
    = log w ++ [ req_exists self (IsEntity entity);
                 req_delete self (IsEntity entity); post_of self entity ].
Proof.
  intros w1 w2 Hex Hdel.
  assert (Hu : update W send (S fuel) self entity true w
               = create W send (S fuel) self entity false false w2).
  { unfold update, update_body. unfold rfc7807_error_handle at 1.
    unfold bind at 1. rewrite exists_run in *. simpl in Hex. cbv zeta.
    rewrite Hex. fold w1.
    unfold bind at 1.
    rewrite (delete_run self (IsEntity entity) w1).
    rewrite Hdel. fold w2.
    pose proof (create_no_HTTPError W send fuel self entity false false w2) as Hhttp.
    destruct (create W send (S fuel) self entity false false w2) as [[a|e] w3];
      [reflexivity|].
    destruct e; try reflexivity. exfalso. eapply Hhttp. reflexivity. }
  split; [exact Hu|]. rewrite Hu, create_sends_one_post.
  unfold w2, w1, after. simpl. rewrite <- !app_assoc. reflexivity.
Qed.

(** *** upsert *)

(** X20.  [upsert] where the POST is not answered 409 is [create]: same
    outcome, and the POST is the only request. *)
Theorem upsert_is_create_without_conflict (fuel : nat) (self : Entities)
    (entity : Entity) (w : World W) :
  status_code (answer_to W send (post_of self entity) w) <> 409 ->
  upsert W send (S fuel) self entity w
    = create W send (S fuel) self entity false false w /\
  log (snd (upsert W send (S fuel) self entity w)) = log w ++ [post_of self entity].
Proof.
  intros Hne.
  destruct (upsert_without_conflict W send fuel self entity w Hne) as [Hu Hs].
  split; [exact Hu|]. rewrite Hs. reflexivity.
Qed.

(** X21.  [upsert] on a conflict, without the client's overwrite default,
    when the broker accepts the DELETE: the requests are the POST, the
    DELETE and a second POST, in that order, and the outcome is that of
    the second [create]; what it raises, if it does, surfaces. *)
Theorem upsert_replaces_on_conflict (fuel : nat) (self : Entities)
    (entity : Entity) (w : World W) :
  let w1 := after W send (post_of self entity) w in
  let w2 := after W send (req_delete self (IsEntity entity)) w1 in
  status_code (answer_to W send (post_of self entity) w) = 409 ->
  Client.overwrite (_client self) = false ->
  success (answer_to W send (req_delete self (IsEntity entity)) w1) = true ->
  upsert W send (S fuel) self entity w
    = create W send (S fuel) self entity false false w2 /\
  log (snd (upsert W send (S fuel) self entity w))
    = log w ++ [ post_of self entity; req_delete self (IsEntity entity);
                 post_of self entity ].
Proof.
  intros w1 w2 H409 Hover Hdel.
  destruct (upsert_on_conflict_replaces W send fuel self entity w H409 Hover Hdel)
    as [Hu Hs].
  split; [exact Hu|]. rewrite Hs.
  unfold after. simpl. rewrite <- !app_assoc. reflexivity.
Qed.

(** X22.  [upsert] on a conflict, without the client's overwrite default,
    when the broker refuses the DELETE: [upsert] raises the error the
    DELETE's status is classified as, after the POST and the DELETE; no
    second POST is sent. *)
Theorem upsert_stops_when_the_delete_is_refused (fuel : nat) (self : Entities)
    (entity : Entity) (w : World W) :
  let w1 := after W send (post_of self entity) w in
  let r := answer_to W send (req_delete self (IsEntity entity)) w1 in
  status_code (answer_to W send (post_of self entity) w) = 409 ->
  Client.overwrite (_client self) = false ->
  success r = false ->
  upsert W send (S fuel) self entity w
    = (Raise (classify (status_code r)),
       after W send (req_delete self (IsEntity entity)) w1) /\
  log (snd (upsert W send (S fuel) self entity w))
    = log w ++ [post_of self entity; req_delete self (IsEntity entity)].
Proof.
  intros w1 r H409 Hover Hdel.
  assert (Hu : upsert W send (S fuel) self entity w
               = (Raise (classify (status_code r)),
                  after W send (req_delete self (IsEntity entity)) w1)).
  { unfold upsert, try_except. unfold rfc7807_error_handle at 1.
    rewrite (create_conflict_run W send fuel self entity false false w H409).
    rewrite Hover. simpl "||". cbv iota. simpl is_already_exists. cbv iota.
    unfold bind at 1. fold w1.
    rewrite (delete_run self (IsEntity entity) w1).
    fold r. rewrite Hdel.
    unfold classify. destruct (status_code r =? 409); reflexivity. }
  split; [exact Hu|]. rewrite Hu.
  unfold after. simpl. rewrite <- !app_assoc. reflexivity.
Qed.

(** *** _query, count and get *)

(** The parameters [_query] starts from: [limit] and [offset] when they are
    not zero. *)
Definition paging_params (limit offset : Z) : dict pyval :=
  let params := if negb (limit =? 0)
                then dict_update [] [("limit", VInt limit)] else [] in
  if negb (offset =? 0) then dict_update params [("offset", VInt offset)]
  else params.

(** The requests [_query] and [count] send. *)
Definition req_query (self : Entities) (type q gq ctx : option string)
    (limit offset : Z) : Request :=
  {| method := GET; req_url := url self;
     req_headers := accept_headers "application/ld+json" ctx;
     req_params := filter_params type q gq (paging_params limit offset);
     req_json := None |}.

Definition req_count (self : Entities) (type q gq ctx : option string) : Request :=
  {| method := GET; req_url := url self;
     req_headers := accept_headers "application/json" ctx;
     req_params := filter_params type q gq
                     [("limit", VInt 0); ("count", VStr "true")];
     req_json := None |}.

(** The list comprehension over the decoded entities: the first element
    that fails makes the whole fail. *)
Fixpoint traverse {A B} (f : A -> result B) (xs : list A) : result (list B) :=
  match xs with
  | [] => Ok []
  | x :: xs' =>
      match f x with
      | Ok y => match traverse f xs' with
                | Ok ys => Ok (y :: ys)
                | Raise e => Raise e
                end
      | Raise e => Raise e
      end
  end.

(** What the decorator makes of an outcome. *)
Definition classified {A} (r : result A) : result A :=
  match r with
  | Raise (HTTPError status) => Raise (classify status)
  | _ => r
  end.

Lemma mapM_lift {A B} (f : A -> result B) (xs : list A) (w : World W) :
  mapM W (fun x => lift (f x)) xs w = (traverse f xs, w).
Proof.
  induction xs as [|x xs IH]; simpl; [reflexivity|].
  unfold bind at 1. unfold lift at 1. destruct (f x) as [y|e]; [|reflexivity].
  unfold bind. rewrite IH. destruct (traverse f xs); reflexivity.
Qed.

Lemma traverse_Ok {A B} (f : A -> result B) (xs : list A) (ys : list B) :
  traverse f xs = Ok ys <-> Forall2 (fun x y => f x = Ok y) xs ys.
Proof.
  revert ys. induction xs as [|x xs IH]; intros ys; simpl.
  - split; [intros [= <-]; constructor | intros H; inversion H; reflexivity].
  - split.
    + destruct (f x) as [y|e] eqn:E; [|discriminate].
      destruct (traverse f xs) as [zs|e]; [|discriminate].
      intros [= <-]. constructor; [exact E | apply IH; reflexivity].
    + intros H. inversion H as [|? y ? zs Hy Hrest]; subst.
      rewrite Hy. apply IH in Hrest. rewrite Hrest. reflexivity.
Qed.

Lemma _query_run (self : Entities) (type q gq ctx : option string)
    (limit offset : Z) (w : World W) :
  is_None type && is_None q = false ->
  _query W send Entity_from_dict self type q gq ctx limit offset w
  = (let r := answer_to W send (req_query self type q gq ctx limit offset) w in
     if success r then
       match body r with
       | Some v =>
           match py_iter v with
           | Ok items => classified (traverse Entity_from_dict items)
           | Raise e => Raise e
           end
       | None => Raise JSONDecodeError
       end
     else Raise (classify (status_code r)),
     after W send (req_query self type q gq ctx limit offset) w).
Proof.
  intros Hfilter. unfold _query, rfc7807_error_handle.
  fold (paging_params limit offset). rewrite Hfilter.
  unfold session_get. unfold bind at 1.
  fold (req_query self type q gq ctx limit offset). rewrite session_request_run.
  cbv zeta. unfold bind at 1. unfold raise_for_status.
  fold (success (answer_to W send (req_query self type q gq ctx limit offset) w)).
  destruct (success _); [|reflexivity].
  unfold ret at 1. unfold bind at 1. unfold response_json.
  destruct (body _) as [v|]; [|reflexivity].
  unfold ret at 1. unfold bind at 1. unfold lift at 1.
  destruct (py_iter v) as [items|e] eqn:Ei.
  - rewrite mapM_lift. unfold classified.
    destruct (traverse Entity_from_dict items) as [es|e]; [reflexivity|].
    destruct e; reflexivity.
  - destruct v; simpl in Ei; try discriminate Ei; injection Ei as <-; reflexivity.
Qed.

Lemma count_run (self : Entities) (type q gq ctx : option string) (w : World W) :
  is_None type && is_None q = false ->
  count W send py_int self type q gq ctx w
  = (let r := answer_to W send (req_count self type q gq ctx) w in
     if success r then
       match dict_get "NGSILD-Results-Count" (headers r) with
       | Some n =>
           match py_int n with
           | Some c => Ok c
           | None => Raise (ValueError "invalid literal for int()")
           end
       | None => Raise (KeyError "NGSILD-Results-Count")
       end
     else Raise (classify (status_code r)),
     after W send (req_count self type q gq ctx) w).
Proof.
  intros Hfilter. unfold count, rfc7807_error_handle. rewrite Hfilter.
  unfold session_get. unfold bind at 1.
  fold (req_count self type q gq ctx). rewrite session_request_run.
  cbv zeta. unfold bind at 1. unfold raise_for_status.
  fold (success (answer_to W send (req_count self type q gq ctx) w)).
  destruct (success _); [|reflexivity].
  unfold ret at 1.
  destruct (dict_get "NGSILD-Results-Count" _) as [n|]; [|reflexivity].
  destruct (py_int n); reflexivity.
Qed.

(** A string argument as it reaches the parameters: dropped when [None] or
    empty. *)
Definition given (s : option string) : option pyval :=
  match s with
  | Some x => if String.eqb x EmptyString then None else Some (VStr x)
  | None => None
  end.

Lemma filter_params_get (type q gq : option string) (params : dict pyval) :
  dict_get "type" params = None -> dict_get "q" params = None ->
  dict_get "geoQ" params = None ->
  dict_get "type" (filter_params type q gq params) = given type /\
  dict_get "q" (filter_params type q gq params) = given q /\
  dict_get "geoQ" (filter_params type q gq params) = given gq /\
  forall k, k <> "type" -> k <> "q" -> k <> "geoQ" ->
    dict_get k (filter_params type q gq params) = dict_get k params.
Proof.
  intros Ht Hq Hg. unfold filter_params, given, str_truthy, truthy.
  destruct type as [t|]; [destruct (String.eqb t EmptyString)|];
  destruct q as [x|]; [destruct (String.eqb x EmptyString)| |
                       destruct (String.eqb x EmptyString)| |
                       destruct (String.eqb x EmptyString)|];
  destruct gq as [g|]; try destruct (String.eqb g EmptyString); simpl negb;
    cbv iota;
    repeat split;
    try (intros k Hk1 Hk2 Hk3);
    repeat (rewrite dict_get_set; simpl String.eqb);
    repeat match goal with
           | H : ?k <> ?c |- context [String.eqb ?k ?c] =>
               rewrite (proj2 (String.eqb_neq k c) H)
           end;
    auto.
Qed.

Lemma paging_params_get (limit offset : Z) :
  dict_get "limit" (paging_params limit offset)
    = (if limit =? 0 then None else Some (VInt limit)) /\
  dict_get "offset" (paging_params limit offset)
    = (if offset =? 0 then None else Some (VInt offset)) /\
  forall k, k <> "limit" -> k <> "offset" ->
    dict_get k (paging_params limit offset) = None.
Proof.
  unfold paging_params.
  destruct (limit =? 0), (offset =? 0); simpl; repeat split;
    intros k H1 H2;
    repeat match goal with
           | H : ?k <> ?c |- context [String.eqb ?k ?c] =>
               rewrite (proj2 (String.eqb_neq k c) H)
           end; reflexivity.
Qed.

(** One parameter, written when its condition holds. *)
Definition entry_if (b : bool) (k : string) (v : pyval) : dict pyval :=
  if b then [(k, v)] else [].

(** One string parameter, written when it is neither [None] nor empty. *)
Definition given_entry (k : string) (s : option string) : dict pyval :=
  match s with
  | Some x => if String.eqb x EmptyString then [] else [(k, VStr x)]
  | None => []
  end.

(** X23.  [_query] sends one request, and this is all of it: a GET to the
    endpoint's url with no body, whose parameters are exactly, in this
    order, [limit] and [offset] when they are not zero and [type], [q] and
    [geoQ] when they are neither [None] nor empty, and whose headers are
    exactly [Accept: application/ld+json], [Content-Type: None] and, when
    a context is given, the [Link] to it. *)
Theorem query_sends_the_given_filters (self : Entities)
    (type q gq ctx : option string) (limit offset : Z) (w : World W) :
  is_None type && is_None q = false ->
  log (snd (_query W send Entity_from_dict self type q gq ctx limit offset w))
  = log w
    ++ [ {| method := GET;
            req_url := url self;
            req_headers :=
              [("Accept", Some "application/ld+json"); ("Content-Type", None)]
              ++ match ctx with
                 | Some c => [("Link", Some (link_header c))]
                 | None => []
                 end;
            req_params :=
              entry_if (negb (limit =? 0)) "limit" (VInt limit)
              ++ entry_if (negb (offset =? 0)) "offset" (VInt offset)
              ++ given_entry "type" type ++ given_entry "q" q
              ++ given_entry "geoQ" gq;
            req_json := None |} ].
Proof.
  intros Hfilter. rewrite _query_run by exact Hfilter.
  unfold after, req_query. simpl log. f_equal. f_equal. f_equal.
  - destruct ctx; reflexivity.
  - unfold filter_params, paging_params, entry_if, given_entry, str_truthy.
    destruct (limit =? 0), (offset =? 0);
      destruct type as [[|c1 t]|]; destruct q as [[|c2 x]|];
      destruct gq as [[|c3 g]|]; reflexivity.
Qed.

(** X24.  An empty [type] passes the guard of [_query] and of [count],
    which only tests for [None], and is then dropped from the parameters:
    with [type=""] and no [q], no [ValueError] stops the call and a GET
    goes out that carries neither [type] nor [q]. *)
Theorem empty_type_passes_the_filter_guard (self : Entities)
    (gq ctx : option string) (limit offset : Z) (w : World W) :
  (exists req,
     log (snd (_query W send Entity_from_dict self (Some EmptyString) None gq ctx
                 limit offset w)) = log w ++ [req] /\
     method req = GET /\
     dict_get "type" (req_params req) = None /\
     dict_get "q" (req_params req) = None) /\
  (exists req,
     log (snd (count W send py_int self (Some EmptyString) None gq ctx w))
       = log w ++ [req] /\
     method req = GET /\
     dict_get "type" (req_params req) = None /\
     dict_get "q" (req_params req) = None).
Proof.
  split.
  - exists (req_query self (Some EmptyString) None gq ctx limit offset).
    rewrite _query_run by reflexivity.
    destruct (paging_params_get limit offset) as [_ [_ Hrest]].
    destruct (filter_params_get (Some EmptyString) None gq
                (paging_params limit offset)) as [Ht [Hq _]];
      try (apply Hrest; discriminate).
    split; [reflexivity|]. split; [reflexivity|]. split; [exact Ht | exact Hq].
  - exists (req_count self (Some EmptyString) None gq ctx).
    rewrite count_run by reflexivity.
    destruct (filter_params_get (Some EmptyString) None gq
                [("limit", VInt 0); ("count", VStr "true")]) as [Ht [Hq _]];
      try reflexivity.
    split; [reflexivity|]. split; [reflexivity|]. split; [exact Ht | exact Hq].
Qed.

(** X25.  On a 2xx answer whose body is a list, [_query] returns the
    entities that [Entity.from_dict] makes of the elements, one for each
    element and in their order; it returns a list only if every element is
    accepted. *)
Theorem query_rehydrates_every_element (self : Entities)
    (type q gq ctx : option string) (limit offset : Z) (w : World W)
    (docs : list pyval) :
  let r := answer_to W send (req_query self type q gq ctx limit offset) w in
  is_None type && is_None q = false ->
  success r = true ->
  body r = Some (VList docs) ->
  forall es,
    fst (_query W send Entity_from_dict self type q gq ctx limit offset w) = Ok es
    <-> Forall2 (fun doc e => Entity_from_dict doc = Ok e) docs es.
Proof.
  intros r Hfilter Hok Hbody es.
  rewrite _query_run by exact Hfilter. cbv zeta. fold r.
  rewrite Hok, Hbody. simpl. rewrite <- traverse_Ok.
  unfold classified. destruct (traverse Entity_from_dict docs) as [xs|e].
  - reflexivity.
  - split; [|discriminate]. destruct e; discriminate.
Qed.

(** X26.  [count] sends one GET with [limit=0] and [count=true], which no
    filter can displace.  On a 2xx answer it returns the integer read from
    the header [NGSILD-Results-Count], raises [KeyError] when the header is
    missing and [ValueError] when it is not an integer; on any other answer
    it raises the classified error without looking at the header. *)
Theorem count_reads_the_results_header (self : Entities)
    (type q gq ctx : option string) (w : World W) :
  is_None type && is_None q = false ->
  let req := req_count self type q gq ctx in
  let r := answer_to W send req w in
  log (snd (count W send py_int self type q gq ctx w)) = log w ++ [req] /\
  dict_get "limit" (req_params req) = Some (VInt 0) /\
  dict_get "count" (req_params req) = Some (VStr "true") /\
  fst (count W send py_int self type q gq ctx w)
  = if success r then
      match dict_get "NGSILD-Results-Count" (headers r) with
      | Some n => match py_int n with
                  | Some c => Ok c
                  | None => Raise (ValueError "invalid literal for int()")
                  end
      | None => Raise (KeyError "NGSILD-Results-Count")
      end
    else Raise (classify (status_code r)).
Proof.
  intros Hfilter req r. rewrite count_run by exact Hfilter.
  destruct (filter_params_get type q gq [("limit", VInt 0); ("count", VStr "true")])
    as [_ [_ [_ Hk]]]; try reflexivity.
  split; [reflexivity|]. simpl req_params.
  split; [rewrite Hk by discriminate; reflexivity|].
  split; [rewrite Hk by discriminate; reflexivity|].
  reflexivity.
Qed.

(** The request [get] sends, and [get] step by step. *)
Definition req_get (self : Entities) (entity : EntityOrId) (ctx : option string)
    : Request :=
  {| method := GET; req_url := (url self ++ "/" ++ eid_of entity)%string;
     req_headers := accept_headers "application/ld+json" ctx;
     req_params := []; req_json := None |}.

Definition rehydrated (doc : pyval) : result (pyval + Entity) :=
  match Entity_from_dict doc with
  | Ok e => Ok (inr e)
  | Raise x => Raise x
  end.

Lemma get_run (self : Entities) (entity : EntityOrId) (ctx : option string)
    (asdict : bool) (w : World W) :
  get W send Entity_from_dict self entity ctx asdict w
  = (let r := answer_to W send (req_get self entity ctx) w in
     if success r then
       match body r with
       | Some doc => if asdict then Ok (inl doc) else classified (rehydrated doc)
       | None => Raise JSONDecodeError
       end
     else Raise (classify (status_code r)),
     after W send (req_get self entity ctx) w).
Proof.
  unfold get, rfc7807_error_handle, session_get.
  unfold bind at 1. fold (req_get self entity ctx). rewrite session_request_run.
  cbv zeta. unfold bind at 1. unfold raise_for_status.
  fold (success (answer_to W send (req_get self entity ctx) w)).
  destruct (success _); [|reflexivity].
  unfold ret at 1. unfold bind at 1. unfold response_json.
  destruct (body _) as [doc|]; [|reflexivity].
  unfold ret at 1. destruct asdict; [reflexivity|].
  unfold bind, lift, ret, classified, rehydrated.
  destruct (Entity_from_dict doc) as [e|x]; [reflexivity|].
  destruct x; reflexivity.
Qed.

(** X27.  [get] sends the same single GET, to [url/<id>], whether [asdict]
    or not, and the entity it returns is what [Entity.from_dict] makes of
    the document it returns with [asdict]; an error of the one is an error
    of the other. *)
Theorem get_is_from_dict_of_get_asdict (self : Entities) (entity : EntityOrId)
    (ctx : option string) (w : World W) :
  snd (get W send Entity_from_dict self entity ctx false w)
    = snd (get W send Entity_from_dict self entity ctx true w) /\
  log (snd (get W send Entity_from_dict self entity ctx true w))
    = log w ++ [req_get self entity ctx] /\
  match fst (get W send Entity_from_dict self entity ctx true w) with
  | Ok (inl doc) =>
      fst (get W send Entity_from_dict self entity ctx false w)
      = classified (rehydrated doc)
  | Ok (inr _) => False
  | Raise x => fst (get W send Entity_from_dict self entity ctx false w) = Raise x
  end.
Proof.
  rewrite !get_run. cbv zeta. simpl.
  split; [reflexivity|]. split; [reflexivity|].
  destruct (success _); [|reflexivity].
  destruct (body _); reflexivity.
Qed.

End Endpoint.

(** *** Runs *)

Import RefBroker.

(** A session that answers by the method alone and keeps no state. *)
Definition scripted (answers : Method -> Response) (req : Request) (st : unit)
    : Response * unit :=
  (answers (method req), st).

Definition fresh_world : World unit := mkWorld tt [].

(** A decimal reader standing for the builtin [int] in the runs. *)
Definition decimal_int (s : string) : option Z :=
  if String.eqb s EmptyString then None
  else option_map Z.of_int (NilEmpty.int_of_string s).

(** X14, witness: the reference broker answers 201 with the location of
    the new resource. *)
Lemma create_accepts_a_location_ending_in_the_id_witness :
  (success (answer_to state send (post_of (endpoint false) room1) empty_world) = true /\
   dict_get "Location"
     (headers (answer_to state send (post_of (endpoint false) room1) empty_world))
   = Some ("http://localhost:1026/ngsi-ld/v1/entities" ++ "/" ++ id room1)%string /\
   has_slash (id room1) = false) /\
  run (create state send 3 (endpoint false) room1 true true) empty_world
  = (Ok (Some room1), [POST], [(room1_id, room1_doc 23)]).
Proof.
  split; [repeat split|].
  unfold run.
  rewrite (create_accepts_a_location_ending_in_the_id state send 2
             (endpoint false) room1 true true empty_world
             "http://localhost:1026/ngsi-ld/v1/entities" eq_refl eq_refl eq_refl).
  reflexivity.
Defined.

(** An entity whose id has a slash in it. *)
Definition slash_room : Entity :=
  {| id := "urn:ngsi-ld:RoomObserved:floor1/Room1";
     _payload := VDict [ ("@context", VList Model.DEFAULT_uris);
                         ("id", VStr "urn:ngsi-ld:RoomObserved:floor1/Room1");
                         ("type", VStr "RoomObserved") ] |}.

(** X15, witness: the reference broker stores the entity and echoes its id
    in the location, and [create] still raises. *)
Lemma create_never_returns_an_id_with_a_slash_witness :
  has_slash (id slash_room) = true /\
  (forall e,
     fst (create state send 3 (endpoint false) slash_room false false empty_world)
     <> Ok (Some e)) /\
  run (create state send 3 (endpoint false) slash_room false false) empty_world
  = (Raise (NgsiApiError
              "Broker returned wrong id. Expected=urn:ngsi-ld:RoomObserved:floor1/Room1 Returned=Room1"),
     [POST],
     [(id slash_room, _payload slash_room)]).
Proof.
  split; [reflexivity|]. split; [|reflexivity].
  exact (create_never_returns_an_id_with_a_slash state send 2 (endpoint false)
           slash_room false false empty_world eq_refl).
Defined.

(** X18, witness: nothing is stored, the probe is answered 404. *)
Lemma update_checked_on_absent_is_a_noop_witness :
  fst (exists_ state send (endpoint false) (IsEntity room1) empty_world) = Ok false /\
  run (update state send 3 (endpoint false) room1 true) empty_world
  = (Ok None, [GET], []).
Proof.
  split; [reflexivity|]. unfold run.
  rewrite (update_checked_on_absent_is_a_noop state send 3 (endpoint false) room1
             empty_world eq_refl).
  reflexivity.
Defined.

(** X19, witness: the older [Room1] is replaced. *)
Lemma update_checked_on_present_replaces_witness :
  (fst (exists_ state send (endpoint false) (IsEntity room1) holding_world) = Ok true /\
   success (answer_to state send (req_delete (endpoint false) (IsEntity room1))
              (after state send (req_exists (endpoint false) (IsEntity room1))
                 holding_world)) = true) /\
  methods (snd (update state send 3 (endpoint false) room1 true holding_world))
  = [GET; DELETE; POST].
Proof.
  split; [split; reflexivity|]. unfold methods.
  rewrite (proj2 (update_checked_on_present_replaces state send 2 (endpoint false)
                    room1 holding_world eq_refl eq_refl)).
  reflexivity.
Defined.

(** X20, witness: a new id. *)
Lemma upsert_is_create_without_conflict_witness :
  status_code (answer_to state send (post_of (endpoint false) room1) empty_world)
    <> 409 /\
  run (upsert state send 3 (endpoint false) room1) empty_world
  = (Ok (Some room1), [POST], [(room1_id, room1_doc 23)]).
Proof.
  assert (Hne : status_code
                  (answer_to state send (post_of (endpoint false) room1) empty_world)
                <> 409) by discriminate.
  split; [exact Hne|]. unfold run.
  rewrite (proj1 (upsert_is_create_without_conflict state send 2 (endpoint false)
                    room1 empty_world Hne)).
  reflexivity.
Defined.

(** X21, witness: an id the broker holds. *)
Lemma upsert_replaces_on_conflict_witness :
  (status_code (answer_to state send (post_of (endpoint false) room1) holding_world)
     = 409 /\
   Client.overwrite (_client (endpoint false)) = false /\
   success (answer_to state send (req_delete (endpoint false) (IsEntity room1))
              (after state send (post_of (endpoint false) room1) holding_world))
     = true) /\
  run (upsert state send 3 (endpoint false) room1) holding_world
  = (Ok (Some room1), [POST; DELETE; POST], [(room1_id, room1_doc 23)]).
Proof.
  split; [repeat split|]. unfold run.
  rewrite (proj1 (upsert_replaces_on_conflict state send 2 (endpoint false) room1
                    holding_world eq_refl eq_refl eq_refl)).
  reflexivity.
Defined.

(** A broker that holds every id and lets nothing be deleted. *)
Definition read_only (m : Method) : Response :=
  match m with
  | POST => {| status_code := 409; headers := []; body := None |}
  | DELETE => {| status_code := 403; headers := []; body := None |}
  | GET => {| status_code := 200; headers := []; body := Some (room1_doc 19) |}
  end.

(** X22, witness: the DELETE is answered 403. *)
Lemma upsert_stops_when_the_delete_is_refused_witness :
  (status_code (answer_to unit (scripted read_only) (post_of (endpoint false) room1)
                  fresh_world) = 409 /\
   Client.overwrite (_client (endpoint false)) = false /\
   success (answer_to unit (scripted read_only)
              (req_delete (endpoint false) (IsEntity room1))
              (after unit (scripted read_only) (post_of (endpoint false) room1)
                 fresh_world)) = false) /\
  fst (upsert unit (scripted read_only) 3 (endpoint false) room1 fresh_world)
    = Raise (NgsiApiError "Broker-classified HTTP error") /\
  map method (log (snd (upsert unit (scripted read_only) 3 (endpoint false) room1
                          fresh_world))) = [POST; DELETE].
Proof.
  split; [repeat split|].
  destruct (upsert_stops_when_the_delete_is_refused unit (scripted read_only) 2
              (endpoint false) room1 fresh_world eq_refl eq_refl eq_refl)
    as [Hu Hlog].
  split; [rewrite Hu; reflexivity | rewrite Hlog; reflexivity].
Defined.

(** A broker that answers a query with two rooms and their count. *)
Definition two_rooms (m : Method) : Response :=
  {| status_code := 200;
     headers := [("NGSILD-Results-Count", "42")];
     body := Some (VList [room1_doc 23; room1_doc 19]) |}.

(** X23, witness: a query by type with a limit. *)
Lemma query_sends_the_given_filters_witness :
  is_None (Some "RoomObserved") && is_None (@None string) = false /\
  log (snd (_query unit (scripted two_rooms) no_from_dict (endpoint false)
              (Some "RoomObserved") None None None 10 0 fresh_world))
  = [ {| method := GET;
         req_url := "http://localhost:1026/ngsi-ld/v1/entities";
         req_headers :=
           [("Accept", Some "application/ld+json"); ("Content-Type", None)];
         req_params := [("limit", VInt 10); ("type", VStr "RoomObserved")];
         req_json := None |} ].
Proof.
  split; [reflexivity|].
  exact (query_sends_the_given_filters unit (scripted two_rooms) no_from_dict
           (endpoint false) (Some "RoomObserved") None None None 10 0
           fresh_world eq_refl).
Defined.

(** X25, witness: both rooms are rehydrated, in order. *)
Lemma query_rehydrates_every_element_witness :
  (is_None (Some "RoomObserved") && is_None (@None string) = false /\
   success (answer_to unit (scripted two_rooms)
              (req_query (endpoint false) (Some "RoomObserved") None None None 0 0)
              fresh_world) = true /\
   body (answer_to unit (scripted two_rooms)
           (req_query (endpoint false) (Some "RoomObserved") None None None 0 0)
           fresh_world) = Some (VList [room1_doc 23; room1_doc 19])) /\
  fst (_query unit (scripted two_rooms) no_from_dict (endpoint false)
         (Some "RoomObserved") None None None 0 0 fresh_world)
  = Ok [ {| id := room1_id; _payload := room1_doc 23 |};
         {| id := room1_id; _payload := room1_doc 19 |} ].
Proof.
  split; [repeat split|].
  apply (query_rehydrates_every_element unit (scripted two_rooms) no_from_dict
           (endpoint false) (Some "RoomObserved") None None None 0 0 fresh_world
           [room1_doc 23; room1_doc 19] eq_refl eq_refl eq_refl).
  repeat constructor.
Defined.

(** X26, witness: the header says 42. *)
Lemma count_reads_the_results_header_witness :
  is_None (Some "RoomObserved") && is_None (@None string) = false /\
  fst (count unit (scripted two_rooms) decimal_int (endpoint false)
         (Some "RoomObserved") None None None fresh_world) = Ok 42.
Proof.
  split; [reflexivity|].
  destruct (count_reads_the_results_header unit (scripted two_rooms) decimal_int
              (endpoint false) (Some "RoomObserved") None None None fresh_world
              eq_refl) as [_ [_ [_ Hres]]].
  rewrite Hres. reflexivity.
Defined.


(** X17, witness: the probe on an empty broker is answered 404 and reads
    as [False]; on a broker that holds the room it reads as [True]. *)
Lemma exists_is_a_probe_for_the_context_key_witness :
  (ok (answer_to state send (req_exists (endpoint false) (IsEntity room1))
         empty_world) = false /\
   ok (answer_to state send (req_exists (endpoint false) (IsEntity room1))
         holding_world) = true) /\
  fst (exists_ state send (endpoint false) (IsEntity room1) empty_world) = Ok false /\
  fst (exists_ state send (endpoint false) (IsEntity room1) holding_world) = Ok true.
Proof.
  split; [split; reflexivity|].
  destruct (exists_is_a_probe_for_the_context_key state send (endpoint false)
              (IsEntity room1) empty_world) as [_ [Habsent _]].
  destruct (exists_is_a_probe_for_the_context_key state send (endpoint false)
              (IsEntity room1) holding_world) as [_ [_ Hpresent]].
  split; [apply Habsent; reflexivity|].
  rewrite (Hpresent _ eq_refl eq_refl). reflexivity.
Defined.

End ApiLaws.
